(** * FeatureFlag: the evaluation engine, its bucketing function and its
    cache-aside coordination with the authoritative store.

    Shallow embedding of
    - src/app/services/evaluation.py  (EvaluationService)
    - src/app/cache.py                (CacheService over a Redis client)
    - src/app/routers/flags.py        (update_flag)
    - src/app/routers/environments.py (delete_environment)

    A Python [str] is a sequence of code points: [list Z]. Bytes are [list Z]
    with every element in [0,256). *)

From Stdlib Require Import ZArith Lia.
From stdpp Require Import base list gmap strings.

Local Open Scope Z_scope.

Abbreviation pystr := (list Z).

(** An ASCII literal of the source as a Python string. *)
Definition lit (s : string) : pystr :=
  map (fun a => Z.of_nat (Ascii.nat_of_ascii a)) (String.list_ascii_of_string s).

(** ------------------------------------------------------------------ *)
(** ** [str.encode()]: UTF-8, raising on lone surrogates. *)

Definition utf8_char (cp : Z) : option (list Z) :=
  if cp <? 0 then None
  else if cp <? 128 then Some [cp]
  else if cp <? 2048 then
    Some [Z.lor 192 (Z.shiftr cp 6); Z.lor 128 (Z.land cp 63)]
  else if (55296 <=? cp) && (cp <=? 57343) then None  (* UnicodeEncodeError *)
  else if cp <? 65536 then
    Some [Z.lor 224 (Z.shiftr cp 12); Z.lor 128 (Z.land (Z.shiftr cp 6) 63);
          Z.lor 128 (Z.land cp 63)]
  else if cp <? 1114112 then
    Some [Z.lor 240 (Z.shiftr cp 18); Z.lor 128 (Z.land (Z.shiftr cp 12) 63);
          Z.lor 128 (Z.land (Z.shiftr cp 6) 63); Z.lor 128 (Z.land cp 63)]
  else None.

(** [None] is the [UnicodeEncodeError] that [encode] raises. *)
Fixpoint encode (s : pystr) : option (list Z) :=
  match s with
  | [] => Some []
  | cp :: rest =>
      match utf8_char cp, encode rest with
      | Some bs, Some tl => Some (bs ++ tl)
      | _, _ => None
      end
  end.

(** A Unicode scalar value: what a [str] decoded from an HTTP request holds. *)
Definition scalar (cp : Z) : bool :=
  (0 <=? cp) && (cp <? 1114112) && negb ((55296 <=? cp) && (cp <=? 57343)).

(** ------------------------------------------------------------------ *)
(** ** [hashlib.md5] (RFC 1321) on 32-bit words. *)

Module MD5.

Definition mod32 (x : Z) : Z := x mod 2 ^ 32.
Definition add32 (x y : Z) : Z := mod32 (x + y).
Definition not32 (x : Z) : Z := Z.lxor x (2 ^ 32 - 1).
Definition rotl32 (x c : Z) : Z :=
  mod32 (Z.lor (Z.shiftl x c) (Z.shiftr x (32 - c))).

Definition K : list Z :=
  [0xd76aa478; 0xe8c7b756; 0x242070db; 0xc1bdceee; 0xf57c0faf; 0x4787c62a;
   0xa8304613; 0xfd469501; 0x698098d8; 0x8b44f7af; 0xffff5bb1; 0x895cd7be;
   0x6b901122; 0xfd987193; 0xa679438e; 0x49b40821; 0xf61e2562; 0xc040b340;
   0x265e5a51; 0xe9b6c7aa; 0xd62f105d; 0x02441453; 0xd8a1e681; 0xe7d3fbc8;
   0x21e1cde6; 0xc33707d6; 0xf4d50d87; 0x455a14ed; 0xa9e3e905; 0xfcefa3f8;
   0x676f02d9; 0x8d2a4c8a; 0xfffa3942; 0x8771f681; 0x6d9d6122; 0xfde5380c;
   0xa4beea44; 0x4bdecfa9; 0xf6bb4b60; 0xbebfbc70; 0x289b7ec6; 0xeaa127fa;
   0xd4ef3085; 0x04881d05; 0xd9d4d039; 0xe6db99e5; 0x1fa27cf8; 0xc4ac5665;
   0xf4292244; 0x432aff97; 0xab9423a7; 0xfc93a039; 0x655b59c3; 0x8f0ccc92;
   0xffeff47d; 0x85845dd1; 0x6fa87e4f; 0xfe2ce6e0; 0xa3014314; 0x4e0811a1;
   0xf7537e82; 0xbd3af235; 0x2ad7d2bb; 0xeb86d391].

Definition S : list Z :=
  [7; 12; 17; 22; 7; 12; 17; 22; 7; 12; 17; 22; 7; 12; 17; 22;
   5; 9; 14; 20; 5; 9; 14; 20; 5; 9; 14; 20; 5; 9; 14; 20;
   4; 11; 16; 23; 4; 11; 16; 23; 4; 11; 16; 23; 4; 11; 16; 23;
   6; 10; 15; 21; 6; 10; 15; 21; 6; 10; 15; 21; 6; 10; 15; 21].

(** [n] little-endian bytes of [x]. *)
Definition le_bytes (n : nat) (x : Z) : list Z :=
  map (fun i => Z.land (Z.shiftr x (8 * Z.of_nat i)) 255) (seq 0 n).

(** Append 0x80, zeros up to 56 mod 64, and the bit length (64-bit LE). *)
Definition pad (msg : list Z) : list Z :=
  let len := Z.of_nat (length msg) in
  msg ++ [128] ++ repeat 0 (Z.to_nat ((55 - len) mod 64))
      ++ le_bytes 8 ((8 * len) mod 2 ^ 64).

Fixpoint blocks (fuel : nat) (l : list Z) : list (list Z) :=
  match fuel with
  | O => []
  | Datatypes.S f =>
      match l with
      | [] => []
      | _ => firstn 64 l :: blocks f (skipn 64 l)
      end
  end.

(** Word [g] of a 64-byte block, little-endian. *)
Definition word (blk : list Z) (g : Z) : Z :=
  let b i := nth (Z.to_nat (4 * g + i)) blk 0 in
  b 0 + b 1 * 2 ^ 8 + b 2 * 2 ^ 16 + b 3 * 2 ^ 24.

Definition step (blk : list Z) (st : Z * Z * Z * Z) (i : nat) : Z * Z * Z * Z :=
  let '(a, b, c, d) := st in
  let zi := Z.of_nat i in
  let '(f, g) :=
    if zi <? 16 then (Z.lor (Z.land b c) (Z.land (not32 b) d), zi)
    else if zi <? 32 then (Z.lor (Z.land d b) (Z.land (not32 d) c), (5 * zi + 1) mod 16)
    else if zi <? 48 then (Z.lxor b (Z.lxor c d), (3 * zi + 5) mod 16)
    else (Z.lxor c (Z.lor b (not32 d)), (7 * zi) mod 16) in
  let f' := add32 (add32 (add32 f a) (nth i K 0)) (word blk g) in
  (d, add32 b (rotl32 f' (nth i S 0)), b, c).

Definition process (st : Z * Z * Z * Z) (blk : list Z) : Z * Z * Z * Z :=
  let '(a0, b0, c0, d0) := st in
  let '(a, b, c, d) := fold_left (step blk) (seq 0 64) st in
  (add32 a0 a, add32 b0 b, add32 c0 c, add32 d0 d).

Definition init : Z * Z * Z * Z := (0x67452301, 0xefcdab89, 0x98badcfe, 0x10325476).

Definition md5 (msg : list Z) : list Z :=
  let p := pad msg in
  let '(a, b, c, d) := fold_left process (blocks (length p) p) init in
  le_bytes 4 a ++ le_bytes 4 b ++ le_bytes 4 c ++ le_bytes 4 d.

End MD5.

(** A byte value. *)
Definition byte (b : Z) : Prop := 0 <= b < 256.

(** [.hexdigest()]: two lowercase hex characters per byte. *)
Definition hexchar (d : Z) : Z := if d <? 10 then 48 + d else 87 + d.

Definition hexdigest (bs : list Z) : pystr :=
  flat_map (fun b => [hexchar (Z.shiftr b 4); hexchar (Z.land b 15)]) bs.

(** [int(s, 16)] on a string of hex digits ([None] is the [ValueError]).
    Signs, whitespace, underscores and a [0x] prefix, which [int] also
    accepts, never occur in a slice of a hex digest. *)
Definition hex_digit (c : Z) : option Z :=
  if (48 <=? c) && (c <=? 57) then Some (c - 48)
  else if (97 <=? c) && (c <=? 102) then Some (c - 87)
  else if (65 <=? c) && (c <=? 70) then Some (c - 55)
  else None.

Fixpoint int16_acc (acc : Z) (s : pystr) : option Z :=
  match s with
  | [] => Some acc
  | c :: rest =>
      match hex_digit c with
      | Some d => int16_acc (acc * 16 + d) rest
      | None => None
      end
  end.

Definition int16 (s : pystr) : option Z :=
  match s with [] => None | _ => int16_acc 0 s end.

(** [EvaluationService._get_bucket]; [None] is the [UnicodeEncodeError]
    raised by [combined.encode()]. *)
Definition _get_bucket (flag_key user_id : pystr) : option Z :=
  let combined := flag_key ++ lit ":" ++ user_id in
  match encode combined with
  | None => None
  | Some bs =>
      let hash_bytes := hexdigest (MD5.md5 bs) in
      match int16 (firstn 8 hash_bytes) with
      | None => None
      | Some hash_int => Some (hash_int mod 100)
      end
  end.

(** The bucketing function as the spec words it (§4.1): the first 8 hex
    characters of the digest read as a 32-bit unsigned integer, i.e. the
    first four digest bytes big-endian, reduced modulo 100. *)
Definition be32 (bs : list Z) : Z :=
  fold_left (fun acc b => acc * 256 + b) (firstn 4 bs) 0.

Definition bucket_spec (flag_key user_id : pystr) : option Z :=
  match encode (flag_key ++ lit ":" ++ user_id) with
  | None => None
  | Some bs => Some (be32 (MD5.md5 bs) mod 100)
  end.

(** [str(n)] for a Python int. *)
Fixpoint digits_acc (fuel : nat) (n : Z) (acc : pystr) : pystr :=
  match fuel with
  | O => acc
  | Datatypes.S f =>
      let acc' := (48 + n mod 10) :: acc in
      if n <? 10 then acc' else digits_acc f (n / 10) acc'
  end.

Definition int_str (n : Z) : pystr :=
  if n <? 0 then 45 :: digits_acc (Z.to_nat (Z.log2 (- n) + 1)) (- n) []
  else digits_acc (Z.to_nat (Z.log2 n + 1)) n [].

(** ------------------------------------------------------------------ *)
(** ** Data model (src/app/models, src/app/schemas) *)

Inductive FlagType := BOOLEAN | PERCENTAGE.

(** [FlagType.X.value] *)
Definition FlagType_value (t : FlagType) : pystr :=
  match t with BOOLEAN => lit "boolean" | PERCENTAGE => lit "percentage" end.

Record Environment := mkEnvironment {
  env_id : pystr; env_key : pystr; env_name : pystr;
  env_description : option pystr }.

Record Flag := mkFlag {
  flag_id : pystr; key : pystr; name : pystr; description : option pystr;
  flag_type : FlagType; is_enabled : bool; rollout_percentage : Z;
  environment_id : pystr }.

(** The dict that [evaluate] builds and caches; the cache stores its
    [json.dumps] text and [get_flag] returns its [json.loads], which for a
    dict of a bool, a str and an int is the dict itself (and the text is
    never empty, so [if data:] holds). *)
Record FlagData := mkFlagData {
  fd_is_enabled : bool; fd_flag_type : pystr; fd_rollout_percentage : Z }.

(** The dict returned by [evaluate]. *)
Record EvalResult := mkEvalResult {
  enabled : bool; res_flag_key : pystr; reason : pystr; cached : bool }.

Record AuditLog := mkAuditLog {
  al_entity_type : pystr; al_entity_id : pystr; al_entity_key : pystr;
  al_action : pystr; al_user_id : pystr; al_environment_key : option pystr }.

(** [FlagUpdate] after [model_dump(exclude_unset=True)]: [None] is an unset
    field, [Some None] a field sent as [null]. The request schema has
    already rejected (422) a [rollout_percentage] outside [0,100]. *)
Record FlagUpdate := mkFlagUpdate {
  upd_name : option (option pystr);
  upd_description : option (option pystr);
  upd_flag_type : option (option FlagType);
  upd_is_enabled : option (option bool);
  upd_rollout_percentage : option (option Z) }.

(** Exceptions that leave a handler. *)
Inductive Exc :=
  | RedisError                      (* redis.exceptions.RedisError *)
  | UnicodeEncodeError
  | IntegrityError                  (* sqlalchemy.exc.IntegrityError at commit *)
  | HTTPException (status_code : Z) (detail : pystr).

(** The authoritative store (its tables), and the Redis server: its key
    space and whether it is reachable. *)
Record World := mkWorld {
  environments : list Environment;
  flags : list Flag;
  audit_logs : list AuditLog;
  redis_store : gmap pystr FlagData;
  redis_up : bool }.

Definition set_flags (fs : list Flag) (w : World) : World :=
  mkWorld (environments w) fs (audit_logs w) (redis_store w) (redis_up w).
Definition set_environments (es : list Environment) (w : World) : World :=
  mkWorld es (flags w) (audit_logs w) (redis_store w) (redis_up w).
Definition set_audit_logs (ls : list AuditLog) (w : World) : World :=
  mkWorld (environments w) (flags w) ls (redis_store w) (redis_up w).
Definition set_redis_store (m : gmap pystr FlagData) (w : World) : World :=
  mkWorld (environments w) (flags w) (audit_logs w) m (redis_up w).

(** ------------------------------------------------------------------ *)
(** ** A state and exception monad: a handler's effects persist when it
    raises (a commit that happened stays committed). *)

Definition M (A : Type) : Type := World -> (Exc + A) * World.

Definition ret {A} (a : A) : M A := fun w => (inr a, w).
Definition raise {A} (e : Exc) : M A := fun w => (inl e, w).
Definition lift_exc {A} (r : Exc + A) : M A := fun w => (r, w).
Definition bind {A B} (m : M A) (k : A -> M B) : M B :=
  fun w => match m w with
           | (inl e, w') => (inl e, w')
           | (inr a, w') => k a w'
           end.

Notation "'let*' x ':=' m 'in' k" := (bind m (fun x => k))
  (at level 200, x name, m at level 100, k at level 200).

(** ------------------------------------------------------------------ *)
(** ** The Redis client ([redis_client]) *)

Definition client_get (k : pystr) : M (option FlagData) :=
  fun w => if redis_up w then (inr (redis_store w !! k), w) else (inl RedisError, w).

(** [SETEX]; Redis rejects a non-positive expire time. Expiry after [ttl]
    seconds is the [expire] transition below. *)
Definition client_setex (k : pystr) (ttl : Z) (v : FlagData) : M unit :=
  fun w => if negb (redis_up w) then (inl RedisError, w)
           else if ttl <=? 0 then (inl RedisError, w)
           else (inr tt, set_redis_store (<[k := v]> (redis_store w)) w).

Definition client_delete (ks : list pystr) : M unit :=
  fun w => if redis_up w
           then (inr tt, set_redis_store (foldr delete (redis_store w) ks) w)
           else (inl RedisError, w).

Fixpoint starts_with (pre s : pystr) : bool :=
  match pre, s with
  | [], _ => true
  | c :: pre', d :: s' => bool_decide (c = d) && starts_with pre' s'
  | _ :: _, [] => false
  end.

(** [KEYS pre*]: the glob [pre*] matches exactly the keys starting with
    [pre] when [pre] holds none of the glob characters [*?[\]], which
    environment keys ([^[a-z0-9-]+$]) never do. *)
Definition client_keys_prefix (pre : pystr) : M (list pystr) :=
  fun w => if redis_up w
           then (inr (filter (fun k => starts_with pre k)
                        (map fst (map_to_list (redis_store w)))), w)
           else (inl RedisError, w).

(** A key's time to live elapsing. *)
Definition expire (k : pystr) (w : World) : World :=
  set_redis_store (delete k (redis_store w)) w.

(** ------------------------------------------------------------------ *)
(** ** [CacheService] (src/app/cache.py) *)

Definition cache_ttl_seconds : Z := 60.

Definition _make_key (flag_key environment_key : pystr) : pystr :=
  lit "flag:" ++ environment_key ++ lit ":" ++ flag_key.

Definition get_flag (flag_key environment_key : pystr) : M (option FlagData) :=
  let* data := client_get (_make_key flag_key environment_key) in
  ret data.

Definition set_flag (flag_key environment_key : pystr) (flag_data : FlagData) : M unit :=
  client_setex (_make_key flag_key environment_key) cache_ttl_seconds flag_data.

Definition invalidate_flag (flag_key environment_key : pystr) : M unit :=
  client_delete [_make_key flag_key environment_key].

Definition invalidate_environment (environment_key : pystr) : M unit :=
  let* keys := client_keys_prefix (lit "flag:" ++ environment_key ++ lit ":") in
  match keys with
  | [] => ret tt
  | _ => client_delete keys
  end.

(** ------------------------------------------------------------------ *)
(** ** The authoritative store: the queries and commits the handlers issue *)

(** [db.query(Environment).filter(Environment.key == k).first()] *)
Definition find_env (environment_key : pystr) (w : World) : option Environment :=
  find (fun e => bool_decide (env_key e = environment_key)) (environments w).

(** [db.query(Flag).filter(Flag.key == k, Flag.environment_id == eid).first()] *)
Definition find_flag (flag_key eid : pystr) (w : World) : option Flag :=
  find (fun f => bool_decide (key f = flag_key) && bool_decide (environment_id f = eid))
    (flags w).

Definition query_environment_by_key (k : pystr) : M (option Environment) :=
  fun w => (inr (find_env k w), w).

Definition query_flag (k eid : pystr) : M (option Flag) :=
  fun w => (inr (find_flag k eid w), w).

(** [setattr] of every set field; [None] when a NOT NULL column is set to
    [None], which the commit rejects. *)
Definition set_field {A} (u : option (option A)) (old : A) : option A :=
  match u with
  | None => Some old
  | Some None => None
  | Some (Some v) => Some v
  end.

Definition apply_update (f : Flag) (u : FlagUpdate) : option Flag :=
  match set_field (upd_name u) (name f),
        set_field (upd_flag_type u) (flag_type f),
        set_field (upd_is_enabled u) (is_enabled f),
        set_field (upd_rollout_percentage u) (rollout_percentage f) with
  | Some n, Some t, Some en, Some r =>
      let d := match upd_description u with None => description f | Some d => d end in
      Some (mkFlag (flag_id f) (key f) n d t en r (environment_id f))
  | _, _, _, _ => None
  end.

(** [setattr(...)]; [db.commit()]; [db.refresh(flag)]. *)
Definition commit_flag_update (f : Flag) (u : FlagUpdate) : M Flag :=
  fun w => match apply_update f u with
           | None => (inl IntegrityError, w)
           | Some f' =>
               (inr f', set_flags (map (fun g => if bool_decide (flag_id g = flag_id f)
                                                 then f' else g) (flags w)) w)
           end.

(** [db.delete(environment)]; [db.commit()]: [flags.environment_id] is a
    NOT NULL foreign key with no ON DELETE action and no ORM relationship,
    so the commit fails while a flag refers to the environment. *)
Definition commit_environment_delete (env : Environment) : M unit :=
  fun w => if existsb (fun f => bool_decide (environment_id f = env_id env)) (flags w)
           then (inl IntegrityError, w)
           else (inr tt, set_environments
                           (filter (fun e => negb (bool_decide (env_id e = env_id env)))
                              (environments w)) w).

(** [AuditService.log_update] (add, commit); the [changes] JSON is not kept. *)
Definition log_update (entity_type entity_id entity_key user_id environment_key : pystr)
  : M AuditLog :=
  fun w => let l := mkAuditLog entity_type entity_id entity_key (lit "updated")
                      user_id (Some environment_key) in
           (inr l, set_audit_logs (audit_logs w ++ [l]) w).

(** ------------------------------------------------------------------ *)
(** ** [EvaluationService] (src/app/services/evaluation.py) *)

(** [if not user_id]: [None] and [""] are falsy. *)
Definition falsy_user_id (user_id : option pystr) : bool :=
  match user_id with None | Some [] => true | Some (_ :: _) => false end.

Definition _evaluate_flag_data (flag_data : FlagData) (flag_key : pystr)
    (user_id : option pystr) (cached : bool) : Exc + EvalResult :=
  if negb (fd_is_enabled flag_data) then
    inr (mkEvalResult false flag_key (lit "Flag is disabled") cached)
  else if bool_decide (fd_flag_type flag_data = FlagType_value BOOLEAN) then
    inr (mkEvalResult true flag_key (lit "Boolean flag is enabled") cached)
  else if bool_decide (fd_flag_type flag_data = FlagType_value PERCENTAGE) then
    match user_id with
    | None | Some [] =>
        inr (mkEvalResult false flag_key (lit "Percentage flag requires user_id") cached)
    | Some uid =>
        match _get_bucket flag_key uid with
        | None => inl UnicodeEncodeError
        | Some bucket =>
            let rollout := fd_rollout_percentage flag_data in
            if bucket <? rollout then
              inr (mkEvalResult true flag_key
                     (lit "User bucket " ++ int_str bucket ++ lit " is within "
                      ++ int_str rollout ++ lit "% rollout") cached)
            else
              inr (mkEvalResult false flag_key
                     (lit "User bucket " ++ int_str bucket ++ lit " is outside "
                      ++ int_str rollout ++ lit "% rollout") cached)
        end
    end
  else
    inr (mkEvalResult false flag_key
           (lit "Unknown flag type: " ++ fd_flag_type flag_data) cached).

(** The two not-found results of [evaluate]. *)
Definition env_not_found (flag_key environment_key : pystr) : EvalResult :=
  mkEvalResult false flag_key
    (lit "Environment '" ++ environment_key ++ lit "' not found") false.

Definition flag_not_found (flag_key environment_key : pystr) : EvalResult :=
  mkEvalResult false flag_key
    (lit "Flag '" ++ flag_key ++ lit "' not found in environment '"
     ++ environment_key ++ lit "'") false.

(** [flag_data = {...}] built from a row. *)
Definition flag_data_of (f : Flag) : FlagData :=
  mkFlagData (is_enabled f) (FlagType_value (flag_type f)) (rollout_percentage f).

Definition evaluate (flag_key environment_key : pystr) (user_id : option pystr)
  : M EvalResult :=
  let* cached_flag := get_flag flag_key environment_key in
  match cached_flag with
  | Some cf => lift_exc (_evaluate_flag_data cf flag_key user_id true)
  | None =>
      let* environment := query_environment_by_key environment_key in
      match environment with
      | None =>
          ret (mkEvalResult false flag_key
                 (lit "Environment '" ++ environment_key ++ lit "' not found") false)
      | Some env =>
          let* flag := query_flag flag_key (env_id env) in
          match flag with
          | None =>
              ret (mkEvalResult false flag_key
                     (lit "Flag '" ++ flag_key ++ lit "' not found in environment '"
                      ++ environment_key ++ lit "'") false)
          | Some f =>
              let flag_data := flag_data_of f in
              let* _u := set_flag flag_key environment_key flag_data in
              lift_exc (_evaluate_flag_data flag_data flag_key user_id false)
          end
      end
  end.

(** ------------------------------------------------------------------ *)
(** ** Write paths *)

(** [update_flag] (src/app/routers/flags.py), run by [current_user] once the
    role dependency has admitted them. *)
Definition update_flag (flag_key : pystr) (flag_data : FlagUpdate)
    (environment_key current_user : pystr) : M Flag :=
  let* environment := query_environment_by_key environment_key in
  match environment with
  | None => raise (HTTPException 404
                     (lit "Environment '" ++ environment_key ++ lit "' not found"))
  | Some env =>
      let* flag := query_flag flag_key (env_id env) in
      match flag with
      | None => raise (HTTPException 404
                         (lit "Flag '" ++ flag_key ++ lit "' not found in environment '"
                          ++ environment_key ++ lit "'"))
      | Some f =>
          let* f' := commit_flag_update f flag_data in
          let* _l := log_update (lit "flag") (flag_id f') (key f') current_user
                       environment_key in
          let* _u := invalidate_flag flag_key environment_key in
          ret f'
      end
  end.

(** [delete_environment] (src/app/routers/environments.py). *)
Definition delete_environment (env_key : pystr) : M unit :=
  let* environment := query_environment_by_key env_key in
  match environment with
  | None => raise (HTTPException 404 (lit "Environment '" ++ env_key ++ lit "' not found"))
  | Some env => commit_environment_delete env
  end.

(** ------------------------------------------------------------------ *)
(** ** More write paths: flag creation and deletion, environments, seeding *)

(** [AuditService._create_log] (add, commit) for the create and delete
    actions, which carry no [changes]. *)
Definition _create_log (entity_type entity_id entity_key action user_id : pystr)
    (environment_key : option pystr) : M AuditLog :=
  fun w => let l := mkAuditLog entity_type entity_id entity_key action user_id
                      environment_key in
           (inr l, set_audit_logs (audit_logs w ++ [l]) w).

Definition log_create (entity_type entity_id entity_key user_id environment_key : pystr)
  : M AuditLog :=
  _create_log entity_type entity_id entity_key (lit "created") user_id (Some environment_key).

Definition log_delete (entity_type entity_id entity_key user_id environment_key : pystr)
  : M AuditLog :=
  _create_log entity_type entity_id entity_key (lit "deleted") user_id (Some environment_key).

(** [FlagCreate] after validation (key [^[a-z0-9-]+$], rollout in [0,100]). *)
Record FlagCreate := mkFlagCreate {
  fc_key : pystr; fc_name : pystr; fc_description : option pystr;
  fc_flag_type : FlagType; fc_is_enabled : bool; fc_rollout_percentage : Z;
  fc_environment_id : pystr }.

(** [db.query(Environment).filter(Environment.id == i).first()] *)
Definition find_env_by_id (i : pystr) (w : World) : option Environment :=
  find (fun e => bool_decide (env_id e = i)) (environments w).

(** [db.add(flag)]; [db.commit()]: [flags.id] is the primary key and
    [flags.key] is declared [unique=True] (one key across all environments). *)
Definition commit_flag_insert (f : Flag) : M unit :=
  fun w => if existsb (fun g => bool_decide (flag_id g = flag_id f) || bool_decide (key g = key f))
                (flags w)
           then (inl IntegrityError, w)
           else (inr tt, set_flags (flags w ++ [f]) w).

(** [create_flag] (src/app/routers/flags.py); [new_id] is the [uuid4] the
    column default draws. *)
Definition query_environment_by_id (i : pystr) : M (option Environment) :=
  fun w => (inr (find_env_by_id i w), w).

Definition create_flag (flag_data : FlagCreate) (new_id current_user : pystr) : M Flag :=
  let* environment := query_environment_by_id (fc_environment_id flag_data) in
  match environment with
  | None => raise (HTTPException 400 (lit "Environment with id '" ++ fc_environment_id flag_data
                                      ++ lit "' not found"))
  | Some environment =>
      let* existing := query_flag (fc_key flag_data) (fc_environment_id flag_data) in
       match existing with
       | Some _ => raise (HTTPException 400 (lit "Flag '" ++ fc_key flag_data
                                             ++ lit "' already exists in this environment"))
       | None =>
           let flag := mkFlag new_id (fc_key flag_data) (fc_name flag_data)
                         (fc_description flag_data) (fc_flag_type flag_data)
                         (fc_is_enabled flag_data) (fc_rollout_percentage flag_data)
                         (fc_environment_id flag_data) in
           let* _c := commit_flag_insert flag in
           let* _l := log_create (lit "flag") (flag_id flag) (key flag) current_user
                        (env_key environment) in
           ret flag
       end
  end.

(** [db.delete(flag)]; [db.commit()]: the row with that primary key goes. *)
Definition commit_flag_delete (f : Flag) : M unit :=
  fun w => (inr tt, set_flags (filter (fun g => negb (bool_decide (flag_id g = flag_id f)))
                                 (flags w)) w).

(** [delete_flag] (src/app/routers/flags.py). *)
Definition delete_flag (flag_key environment_key current_user : pystr) : M unit :=
  let* environment := query_environment_by_key environment_key in
  match environment with
  | None => raise (HTTPException 404
                     (lit "Environment '" ++ environment_key ++ lit "' not found"))
  | Some env =>
      let* flag := query_flag flag_key (env_id env) in
      match flag with
      | None => raise (HTTPException 404
                         (lit "Flag '" ++ flag_key ++ lit "' not found in environment '"
                          ++ environment_key ++ lit "'"))
      | Some f =>
          let* _c := commit_flag_delete f in
          let* _l := log_delete (lit "flag") (flag_id f) flag_key current_user environment_key in
          let* _u := invalidate_flag flag_key environment_key in
          ret tt
      end
  end.

(** [EnvironmentCreate] after validation. *)
Record EnvironmentCreate := mkEnvironmentCreate {
  ec_key : pystr; ec_name : pystr; ec_description : option pystr }.

(** [db.add(...)] of several environments and one [db.commit()]: the
    transaction fails as a whole on a duplicate primary key or key. *)
Fixpoint insert_environments (es : list Environment) (new : list Environment)
  : option (list Environment) :=
  match new with
  | [] => Some es
  | e :: rest =>
      if existsb (fun x => bool_decide (env_id x = env_id e) || bool_decide (env_key x = env_key e)) es
      then None
      else insert_environments (es ++ [e]) rest
  end.

Definition commit_environment_inserts (new : list Environment) : M unit :=
  fun w => match insert_environments (environments w) new with
           | None => (inl IntegrityError, w)
           | Some es => (inr tt, set_environments es w)
           end.


Definition default_envs : list EnvironmentCreate :=
  [mkEnvironmentCreate (lit "development") (lit "Development")
     (Some (lit "Local development and testing"));
   mkEnvironmentCreate (lit "staging") (lit "Staging")
     (Some (lit "Pre-production testing environment"));
   mkEnvironmentCreate (lit "production") (lit "Production")
     (Some (lit "Live environment for real users"))].

(** The loop of [seed_environments] (src/app/main.py): with
    [autoflush=False] each [existing] query sees the committed table only;
    [new_id n] is the [n]-th [uuid4] drawn for a new row. *)
Fixpoint seed_pending (w : World) (defs : list EnvironmentCreate) (new_id : nat -> pystr)
    (n : nat) : list Environment :=
  match defs with
  | [] => []
  | d :: defs' =>
      match find_env (ec_key d) w with
      | Some _ => seed_pending w defs' new_id n
      | None => mkEnvironment (new_id n) (ec_key d) (ec_name d) (ec_description d)
                  :: seed_pending w defs' new_id (Datatypes.S n)
      end
  end.

Definition seed_environments (new_id : nat -> pystr) : M unit :=
  fun w => commit_environment_inserts (seed_pending w default_envs new_id O) w.

(** ------------------------------------------------------------------ *)
(** ** Users and roles (src/app/models/user.py, src/app/auth.py,
    src/app/routers/auth.py) *)

Inductive UserRole := VIEWER | DEVELOPER | ADMIN.

Definition UserRole_eqb (a b : UserRole) : bool :=
  match a, b with
  | VIEWER, VIEWER | DEVELOPER, DEVELOPER | ADMIN, ADMIN => true
  | _, _ => false
  end.

Record User := mkUser {
  user_id : pystr; email : pystr; hashed_password : pystr; user_name : pystr;
  role : UserRole; is_active : bool }.

Definition UserRole_value (r : UserRole) : pystr :=
  match r with VIEWER => lit "viewer" | DEVELOPER => lit "developer" | ADMIN => lit "admin" end.

(** Python's [repr] of a list of str without quotes inside. *)
Fixpoint repr_items (xs : list pystr) : pystr :=
  match xs with
  | [] => []
  | [x] => lit "'" ++ x ++ lit "'"
  | x :: rest => lit "'" ++ x ++ lit "', " ++ repr_items rest
  end.

(** [role_checker] of [require_role(allowed_roles)], on the user that
    [get_current_user] returned. *)
Definition require_role (allowed_roles : list UserRole) (user : User) : Exc + User :=
  if negb (existsb (UserRole_eqb (role user)) allowed_roles)
  then inl (HTTPException 403 (lit "Access denied. Required role: [" ++
                               repr_items (map UserRole_value allowed_roles) ++ lit "]"))
  else inr user.

Definition require_admin := require_role [ADMIN].
Definition require_developer_or_admin := require_role [DEVELOPER; ADMIN].
Definition require_any_role := require_role [VIEWER; DEVELOPER; ADMIN].

(** [update_user_role] (src/app/routers/auth.py) over the [users] table,
    after its [require_admin] dependency. *)
Definition update_user_role (uid : pystr) (new_role : UserRole) (current_user : User)
    (users : list User) : (Exc + User) * list User :=
  match require_admin current_user with
  | inl e => (inl e, users)
  | inr _ =>
      match find (fun u => bool_decide (user_id u = uid)) users with
      | None => (inl (HTTPException 404 (lit "User not found")), users)
      | Some user =>
          if bool_decide (user_id user = user_id current_user) && negb (UserRole_eqb new_role ADMIN)
          then (inl (HTTPException 400 (lit "Cannot remove your own admin role")), users)
          else
            let user' := mkUser (user_id user) (email user) (hashed_password user)
                           (user_name user) new_role (is_active user) in
            (inr user', map (fun u => if bool_decide (user_id u = user_id user) then user' else u)
                           users)
      end
  end.

(** A key with no [:], as every environment key validated by
    [^[a-z0-9-]+$] is. *)
Definition no_colon (s : pystr) : bool := negb (existsb (Z.eqb 58) s).

(** The [UNIQUE] constraints of the two tables: primary keys, [flags.key]
    and [environments.key]. *)
Definition flags_keyed (fs : list Flag) : Prop :=
  NoDup (map flag_id fs) /\ NoDup (map key fs).

Definition envs_keyed (es : list Environment) : Prop :=
  NoDup (map env_id es) /\ NoDup (map env_key es).

(** ------------------------------------------------------------------ *)
(** ** Concrete states *)

Definition env_production : Environment :=
  mkEnvironment (lit "env-1") (lit "production") (lit "Production") None.
Definition env_development : Environment :=
  mkEnvironment (lit "env-2") (lit "development") (lit "Development") None.

Definition flag_new_checkout : Flag :=
  mkFlag (lit "flag-1") (lit "new-checkout") (lit "New Checkout Flow") None
         PERCENTAGE true 50 (lit "env-1").
Definition flag_dark_mode : Flag :=
  mkFlag (lit "flag-2") (lit "dark-mode") (lit "Dark Mode") None
         BOOLEAN true 0 (lit "env-1").

Definition boolean_on : FlagData := mkFlagData true (lit "boolean") 0.
Definition percentage_at (p : Z) : FlagData := mkFlagData true (lit "percentage") p.

(** The store with [production] and its two flags, Redis empty and up. *)
Definition w_prod : World :=
  mkWorld [env_production] [flag_new_checkout; flag_dark_mode] [] ∅ true.

(** The same store with the Redis server unreachable. *)
Definition w_redis_down : World :=
  mkWorld [env_production] [flag_new_checkout; flag_dark_mode] [] ∅ false.

(** No [staging] environment in the store, but a leftover cache entry under
    [flag:staging:]. *)
Definition w_stale : World :=
  mkWorld [env_production] [flag_new_checkout; flag_dark_mode] []
          {[ _make_key (lit "dark-mode") (lit "staging") := boolean_on ]} true.

(** [development] holds no flag; Redis still holds an entry under
    [flag:development:]. *)
Definition w_dev_cached : World :=
  mkWorld [env_production; env_development] [flag_new_checkout; flag_dark_mode] []
          {[ _make_key (lit "beta-feature") (lit "development") := boolean_on ]} true.

(** [w_prod] after one evaluation of [new-checkout] for [alice]. *)
Definition alice_first : EvalResult * World :=
  Eval vm_compute in
  match evaluate (lit "new-checkout") (lit "production") (Some (lit "alice")) w_prod with
  | (inr r, w) => (r, w)
  | (inl _, w) => (mkEvalResult false [] [] false, w)
  end.

Definition rollout_to_60 : FlagUpdate := mkFlagUpdate None None None None (Some (Some 60)).

(** [update_flag] raising the rollout of [new-checkout] to 60 after the
    evaluation above populated the cache. *)
Definition update_to_60 : Flag * World :=
  Eval vm_compute in
  match update_flag (lit "new-checkout") rollout_to_60 (lit "production") (lit "user-1")
          (snd alice_first) with
  | (inr f, w) => (f, w)
  | (inl _, w) => (flag_new_checkout, w)
  end.

(** An empty store, and the ids drawn while seeding it. *)
Definition w_empty : World := mkWorld [] [] [] ∅ true.
Definition seed_ids (n : nat) : pystr := lit "env-" ++ int_str (Z.of_nat n + 10).

(** Requests to create a flag in [development]. *)
Definition fc_dark_mode_dev : FlagCreate :=
  mkFlagCreate (lit "dark-mode") (lit "Dark Mode") None BOOLEAN true 0 (lit "env-2").
Definition fc_beta_dev : FlagCreate :=
  mkFlagCreate (lit "beta-feature") (lit "Beta Feature") None PERCENTAGE true 25 (lit "env-2").

(** ================================================================== *)
(** * Properties *)

(** ** Test vectors (Python's [hashlib] agrees) *)

Example md5_empty :
  hexdigest (MD5.md5 []) = lit "d41d8cd98f00b204e9800998ecf8427e".
Proof. vm_compute. reflexivity. Qed.

Example bucket_alice : _get_bucket (lit "new-checkout") (lit "alice") = Some 53.
Proof. vm_compute. reflexivity. Qed.

Example bucket_bob : _get_bucket (lit "new-checkout") (lit "bob") = Some 70.
Proof. vm_compute. reflexivity. Qed.

Example md5_two_blocks_utf8 :
  option_map (fun bs => hexdigest (MD5.md5 bs))
    (encode (repeat 97 70 ++ [233; 8364; 128512]))
  = Some (lit "7b5ecc2f26b6f49e1495e72c6c78af89").
Proof. vm_compute. reflexivity. Qed.

(** ** The bucketing function *)

Lemma land_255_byte (x : Z) : byte (Z.land x 255).
Proof.
  unfold byte. change 255 with (Z.ones 8).
  rewrite Z.land_ones by lia. apply Z.mod_pos_bound. lia.
Qed.

Lemma md5_shape (msg : list Z) :
  exists b0 b1 b2 b3 rest, MD5.md5 msg = b0 :: b1 :: b2 :: b3 :: rest /\
    byte b0 /\ byte b1 /\ byte b2 /\ byte b3.
Proof.
  unfold MD5.md5.
  destruct (fold_left MD5.process _ MD5.init) as [[[a b] c] d].
  simpl. do 5 eexists. split; [reflexivity|].
  repeat split; apply land_255_byte.
Qed.

Lemma hex_digit_hexchar (d : Z) : 0 <= d < 16 -> hex_digit (hexchar d) = Some d.
Proof.
  intros Hd.
  assert (d = 0 \/ d = 1 \/ d = 2 \/ d = 3 \/ d = 4 \/ d = 5 \/ d = 6 \/ d = 7 \/
          d = 8 \/ d = 9 \/ d = 10 \/ d = 11 \/ d = 12 \/ d = 13 \/ d = 14 \/ d = 15)
    as Hc by lia.
  repeat destruct Hc as [Hc|Hc]; subst; reflexivity.
Qed.

(** Two hex characters of a byte read as one base-256 digit. *)
Lemma int16_acc_hex_pair (acc b : Z) (rest : pystr) : byte b ->
  int16_acc acc (hexchar (Z.shiftr b 4) :: hexchar (Z.land b 15) :: rest)
  = int16_acc (acc * 256 + b) rest.
Proof.
  unfold byte. intros Hb.
  rewrite Z.shiftr_div_pow2 by lia.
  change 15 with (Z.ones 4). rewrite Z.land_ones by lia.
  change (2 ^ 4) with 16.
  simpl int16_acc.
  rewrite hex_digit_hexchar
    by (split; [apply Z.div_pos; lia | apply Z.div_lt_upper_bound; lia]).
  rewrite hex_digit_hexchar by (apply Z.mod_pos_bound; lia).
  f_equal. pose proof (Z.div_mod b 16). lia.
Qed.

Lemma be32_bound (b0 b1 b2 b3 : Z) (rest : list Z) :
  byte b0 -> byte b1 -> byte b2 -> byte b3 ->
  0 <= be32 (b0 :: b1 :: b2 :: b3 :: rest) < 2 ^ 32.
Proof. unfold byte, be32. simpl. lia. Qed.

Lemma encode_app (s t : pystr) :
  encode (s ++ t) = match encode s, encode t with
                    | Some a, Some b => Some (a ++ b) | _, _ => None end.
Proof.
  induction s as [|c s IH]; simpl.
  - destruct (encode t); reflexivity.
  - rewrite IH. destruct (utf8_char c), (encode s), (encode t); simpl;
      try reflexivity. rewrite app_assoc. reflexivity.
Qed.

(** Every string of Unicode scalar values encodes. *)
Lemma encode_scalar (s : pystr) :
  forallb scalar s = true -> exists bs, encode s = Some bs.
Proof.
  induction s as [|c s IH]; simpl; intros H.
  - eexists; reflexivity.
  - apply andb_true_iff in H as [Hc Hs]. destruct (IH Hs) as [tl ->].
    unfold scalar in Hc. unfold utf8_char.
    apply andb_true_iff in Hc as [Hc Hn]. apply andb_true_iff in Hc as [H0 H1].
    apply negb_true_iff in Hn.
    rewrite Z.leb_le in H0. rewrite Z.ltb_lt in H1.
    destruct (c <? 0) eqn:E0; [apply Z.ltb_lt in E0; lia|].
    destruct (c <? 128); [eexists; reflexivity|].
    destruct (c <? 2048); [eexists; reflexivity|].
    rewrite Hn.
    destruct (c <? 65536); [eexists; reflexivity|].
    destruct (c <? 1114112) eqn:E; [eexists; reflexivity|].
    apply Z.ltb_ge in E. lia.
Qed.

Lemma get_bucket_spec_eq (flag_key user_id : pystr) :
  _get_bucket flag_key user_id = bucket_spec flag_key user_id.
Proof.
  unfold _get_bucket, bucket_spec.
  destruct (encode (flag_key ++ lit ":" ++ user_id)) as [bs|]; [|reflexivity].
  destruct (md5_shape bs) as (b0 & b1 & b2 & b3 & rest & -> & H0 & H1 & H2 & H3).
  unfold hexdigest. cbn [flat_map app firstn]. unfold int16.
  rewrite !int16_acc_hex_pair by assumption. reflexivity.
Qed.

Lemma get_bucket_range (flag_key user_id : pystr) (b : Z) :
  _get_bucket flag_key user_id = Some b -> 0 <= b < 100.
Proof.
  rewrite get_bucket_spec_eq. unfold bucket_spec. intros Hb.
  destruct (encode _); inversion Hb. apply Z.mod_pos_bound. lia.
Qed.

Lemma get_bucket_defined (flag_key user_id : pystr) :
  forallb scalar (flag_key ++ lit ":" ++ user_id) = true ->
  exists b, _get_bucket flag_key user_id = Some b.
Proof.
  intros H. rewrite get_bucket_spec_eq. unfold bucket_spec.
  destruct (encode_scalar _ H) as [bs ->]. eexists; reflexivity.
Qed.

(** C1: [_get_bucket] is the spec's reference definition on every pair of
    strings ([flag_key ":" user_id], UTF-8, MD5, the first 8 hex characters
    as a 32-bit unsigned integer, modulo 100), and every bucket it returns
    lies in [0,100). *)
Theorem get_bucket_is_reference (flag_key user_id : pystr) :
  _get_bucket flag_key user_id = bucket_spec flag_key user_id /\
  (forall b, _get_bucket flag_key user_id = Some b -> 0 <= b < 100).
Proof.
  split; [apply get_bucket_spec_eq | intros b; apply get_bucket_range].
Qed.

(** ** [_evaluate_flag_data] *)

Lemma percentage_not_boolean : FlagType_value PERCENTAGE <> FlagType_value BOOLEAN.
Proof. vm_compute. discriminate. Qed.

(** The percentage branch, for an enabled percentage flag. *)
Lemma evaluate_flag_data_percentage (fd : FlagData) (flag_key : pystr)
    (user_id : option pystr) (c : bool) :
  fd_is_enabled fd = true -> fd_flag_type fd = FlagType_value PERCENTAGE ->
  _evaluate_flag_data fd flag_key user_id c =
  match user_id with
  | None | Some [] =>
      inr (mkEvalResult false flag_key (lit "Percentage flag requires user_id") c)
  | Some uid =>
      match _get_bucket flag_key uid with
      | None => inl UnicodeEncodeError
      | Some bucket =>
          let rollout := fd_rollout_percentage fd in
          inr (mkEvalResult (bucket <? rollout) flag_key
                 (lit "User bucket " ++ int_str bucket ++
                  (if bucket <? rollout then lit " is within " else lit " is outside ")
                  ++ int_str rollout ++ lit "% rollout") c)
      end
  end.
Proof.
  intros He Ht. unfold _evaluate_flag_data. rewrite He, Ht. simpl negb.
  rewrite (bool_decide_eq_false_2 _ percentage_not_boolean).
  rewrite (bool_decide_eq_true_2 (FlagType_value PERCENTAGE = FlagType_value PERCENTAGE))
    by reflexivity.
  destruct user_id as [[|x u]|]; try reflexivity.
  destruct (_get_bucket flag_key (x :: u)) as [b|]; [|reflexivity].
  destruct (b <? fd_rollout_percentage fd); reflexivity.
Qed.

Lemma evaluate_flag_data_cached (fd : FlagData) (flag_key : pystr)
    (user_id : option pystr) (c : bool) (r : EvalResult) :
  _evaluate_flag_data fd flag_key user_id c = inr r -> cached r = c.
Proof.
  unfold _evaluate_flag_data.
  destruct (negb _); [intros H; inversion H; reflexivity|].
  destruct (bool_decide _); [intros H; inversion H; reflexivity|].
  destruct (bool_decide _); [|intros H; inversion H; reflexivity].
  destruct user_id as [[|x u]|]; try (intros H; inversion H; reflexivity).
  destruct (_get_bucket _ _) as [b|]; [|discriminate].
  destruct (b <? _); intros H; inversion H; reflexivity.
Qed.

(** Only the [cached] field depends on where the flag data came from. *)
Lemma evaluate_flag_data_recached (fd : FlagData) (flag_key : pystr)
    (user_id : option pystr) (c c' : bool) (r : EvalResult) :
  _evaluate_flag_data fd flag_key user_id c = inr r ->
  _evaluate_flag_data fd flag_key user_id c' =
  inr (mkEvalResult (enabled r) (res_flag_key r) (reason r) c').
Proof.
  unfold _evaluate_flag_data.
  destruct (negb _); [intros H; inversion H; reflexivity|].
  destruct (bool_decide _); [intros H; inversion H; reflexivity|].
  destruct (bool_decide _); [|intros H; inversion H; reflexivity].
  destruct user_id as [[|x u]|]; try (intros H; inversion H; reflexivity).
  destruct (_get_bucket _ _) as [b|]; [|discriminate].
  destruct (b <? _); intros H; inversion H; reflexivity.
Qed.

(** C6: for an enabled percentage flag, a user enabled at rollout [p] is
    enabled at every rollout [p' > p]. *)
Theorem rollout_monotone (flag_key : pystr) (user_id : option pystr) (c : bool)
    (p p' : Z) (r : EvalResult) :
  p < p' ->
  _evaluate_flag_data (percentage_at p) flag_key user_id c = inr r ->
  enabled r = true ->
  exists r', _evaluate_flag_data (percentage_at p') flag_key user_id c = inr r' /\
             enabled r' = true.
Proof.
  intros Hlt. rewrite !evaluate_flag_data_percentage by reflexivity.
  destruct user_id as [[|x u]|]; try (intros H; inversion H; subst; discriminate).
  destruct (_get_bucket flag_key (x :: u)) as [b|]; [|discriminate].
  intros H Hen. inversion H; subst. simpl in Hen |- *.
  eexists; split; [reflexivity|]. simpl.
  apply Z.ltb_lt in Hen. apply Z.ltb_lt. lia.
Qed.

(** C7 (as the code has it): for an enabled percentage flag, rollout 0
    enables no user id (an evaluation never returns enabled), and rollout
    100 enables every non-empty user id that encodes to UTF-8; the empty
    user id is treated as absent and is not enabled. *)
Theorem rollout_boundaries (flag_key : pystr) (c : bool) :
  (forall user_id r,
     _evaluate_flag_data (percentage_at 0) flag_key user_id c = inr r ->
     enabled r = false) /\
  (forall uid, uid <> [] -> forallb scalar (flag_key ++ lit ":" ++ uid) = true ->
     exists r, _evaluate_flag_data (percentage_at 100) flag_key (Some uid) c = inr r /\
               enabled r = true).
Proof.
  split.
  - intros user_id r. rewrite evaluate_flag_data_percentage by reflexivity.
    destruct user_id as [[|x u]|]; try (intros H; inversion H; reflexivity).
    destruct (_get_bucket flag_key (x :: u)) as [b|] eqn:E; [|discriminate].
    intros H; inversion H; subst. simpl.
    apply get_bucket_range in E. apply Z.ltb_ge. lia.
  - intros uid Hne Hs. rewrite evaluate_flag_data_percentage by reflexivity.
    destruct uid as [|x u]; [contradiction|].
    destruct (get_bucket_defined _ _ Hs) as [b E]. rewrite E.
    apply get_bucket_range in E.
    eexists; split; [reflexivity|]. simpl. apply Z.ltb_lt. lia.
Qed.

(** C7 fails as stated: at rollout 100 the empty user id [""] is not
    enabled. *)
Lemma rollout_100_empty_user_disabled :
  _evaluate_flag_data (percentage_at 100) (lit "new-checkout") (Some []) false
  = inr (mkEvalResult false (lit "new-checkout")
           (lit "Percentage flag requires user_id") false).
Proof. reflexivity. Qed.

(** C10: an empty user id is treated as an absent one by an enabled
    percentage flag: no bucket is computed and the user is not enabled. *)
Theorem empty_user_id_is_absent (fd : FlagData) (flag_key : pystr) (c : bool) :
  fd_is_enabled fd = true -> fd_flag_type fd = FlagType_value PERCENTAGE ->
  _evaluate_flag_data fd flag_key (Some []) c
  = inr (mkEvalResult false flag_key (lit "Percentage flag requires user_id") c) /\
  _evaluate_flag_data fd flag_key (Some []) c = _evaluate_flag_data fd flag_key None c.
Proof.
  intros He Ht. rewrite !evaluate_flag_data_percentage by assumption.
  split; reflexivity.
Qed.

(** ** [evaluate] *)

(** [evaluate] step by step: cache, environment, flag, cache fill. *)
Lemma evaluate_eq (w : World) (flag_key environment_key : pystr)
    (user_id : option pystr) :
  evaluate flag_key environment_key user_id w =
  if negb (redis_up w) then (inl RedisError, w) else
  match redis_store w !! _make_key flag_key environment_key with
  | Some cf => (_evaluate_flag_data cf flag_key user_id true, w)
  | None =>
      match find_env environment_key w with
      | None => (inr (env_not_found flag_key environment_key), w)
      | Some env =>
          match find_flag flag_key (env_id env) w with
          | None => (inr (flag_not_found flag_key environment_key), w)
          | Some f =>
              (_evaluate_flag_data (flag_data_of f) flag_key user_id false,
               set_redis_store (<[_make_key flag_key environment_key := flag_data_of f]>
                                  (redis_store w)) w)
          end
      end
  end.
Proof.
  unfold evaluate, get_flag, bind, client_get, ret, lift_exc, set_flag, client_setex,
    query_environment_by_key, query_flag.
  destruct (redis_up w) eqn:U; [|reflexivity]. simpl negb. cbv iota beta.
  destruct (redis_store w !! _) as [cf|]; [reflexivity|].
  destruct (find_env environment_key w) as [env|]; [|reflexivity].
  destruct (find_flag flag_key (env_id env) w) as [f|]; [|reflexivity].
  rewrite U. reflexivity.
Qed.

(** C2 (as the code has it): no handler absorbs a cache backend failure;
    when Redis is unreachable, [evaluate] raises the Redis error, before the
    store is consulted and without changing anything. *)
Theorem evaluate_propagates_cache_failure (w : World) (flag_key environment_key : pystr)
    (user_id : option pystr) :
  redis_up w = false ->
  evaluate flag_key environment_key user_id w = (inl RedisError, w).
Proof. intros U. rewrite evaluate_eq, U. reflexivity. Qed.

(** C2 fails as stated: with Redis down, evaluating a flag present in the
    store raises instead of falling back to the store. *)
Lemma evaluate_redis_down_raises :
  evaluate (lit "dark-mode") (lit "production") None w_redis_down
  = (inl RedisError, w_redis_down).
Proof. vm_compute. reflexivity. Qed.

(** C4 (as the code has it): on a cache miss (Redis reachable, no entry for
    the key), a missing environment or a missing flag gives a normal
    disabled result with [cached = false] and a "not found" reason naming
    it, and nothing changes. *)
Theorem evaluate_not_found_on_miss (w : World) (flag_key environment_key : pystr)
    (user_id : option pystr) :
  redis_up w = true ->
  redis_store w !! _make_key flag_key environment_key = None ->
  (find_env environment_key w = None ->
   evaluate flag_key environment_key user_id w
   = (inr (mkEvalResult false flag_key
             (lit "Environment '" ++ environment_key ++ lit "' not found") false), w)) /\
  (forall env, find_env environment_key w = Some env ->
   find_flag flag_key (env_id env) w = None ->
   evaluate flag_key environment_key user_id w
   = (inr (mkEvalResult false flag_key
             (lit "Flag '" ++ flag_key ++ lit "' not found in environment '"
              ++ environment_key ++ lit "'") false), w)).
Proof.
  intros U C. rewrite evaluate_eq, U, C. simpl negb. split.
  - intros E. rewrite E. reflexivity.
  - intros env E F. rewrite E, F. reflexivity.
Qed.

(** C4 fails as stated: the cache is read first, so a cache entry for an
    environment absent from the store is served as enabled and cached. *)
Lemma evaluate_stale_entry_for_missing_environment :
  find_env (lit "staging") w_stale = None /\
  evaluate (lit "dark-mode") (lit "staging") None w_stale
  = (inr (mkEvalResult true (lit "dark-mode") (lit "Boolean flag is enabled") true),
     w_stale).
Proof. split; vm_compute; reflexivity. Qed.

(** C5: evaluation is deterministic: a call that returns, repeated with
    the same arguments on the state it left (the same store, the cache it
    may have filled), returns the same [enabled] value. *)
Theorem evaluate_deterministic (w w1 : World) (flag_key environment_key : pystr)
    (user_id : option pystr) (r1 : EvalResult) :
  evaluate flag_key environment_key user_id w = (inr r1, w1) ->
  exists r2, fst (evaluate flag_key environment_key user_id w1) = inr r2 /\
             enabled r2 = enabled r1.
Proof.
  rewrite evaluate_eq. destruct (redis_up w) eqn:U; simpl negb; [|discriminate].
  destruct (redis_store w !! _) as [cf|] eqn:C.
  - intros H; inversion H; subst.
    rewrite evaluate_eq, U, C. simpl. eexists; split; [eassumption|reflexivity].
  - destruct (find_env environment_key w) as [env|] eqn:E.
    + destruct (find_flag flag_key (env_id env) w) as [f|] eqn:F.
      * intros H; inversion H; subst.
        rewrite evaluate_eq. simpl. rewrite U. simpl negb.
        rewrite lookup_insert_eq. simpl.
        erewrite evaluate_flag_data_recached by eassumption.
        eexists; split; reflexivity.
      * intros H; inversion H; subst.
        rewrite evaluate_eq, U, C, E, F. eexists; split; reflexivity.
    + intros H; inversion H; subst.
      rewrite evaluate_eq, U, C, E. eexists; split; reflexivity.
Qed.

(** C8: a call that misses and fills the cache ([cached = false], the key now
    present) is followed by a call that hits it: [cached = true], the same
    [enabled], and no change of state. *)
Theorem evaluate_cache_roundtrip (w w1 : World) (flag_key environment_key : pystr)
    (user_id : option pystr) (r1 : EvalResult) :
  evaluate flag_key environment_key user_id w = (inr r1, w1) ->
  cached r1 = false ->
  redis_store w1 !! _make_key flag_key environment_key <> None ->
  exists r2, evaluate flag_key environment_key user_id w1 = (inr r2, w1) /\
             cached r2 = true /\ enabled r2 = enabled r1.
Proof.
  intros H Hc Hk. revert H. rewrite evaluate_eq.
  destruct (redis_up w) eqn:U; simpl negb; [|discriminate].
  destruct (redis_store w !! _) as [cf|] eqn:C.
  - intros H; inversion H; subst.
    apply evaluate_flag_data_cached in H1. congruence.
  - destruct (find_env environment_key w) as [env|] eqn:E.
    + destruct (find_flag flag_key (env_id env) w) as [f|] eqn:F.
      * intros H; inversion H; subst.
        rewrite evaluate_eq. simpl. rewrite U. simpl negb.
        rewrite lookup_insert_eq.
        erewrite evaluate_flag_data_recached by eassumption.
        eexists; repeat split.
      * intros H; inversion H; subst. congruence.
    + intros H; inversion H; subst. congruence.
Qed.

(** ** Write paths and invalidation *)

Lemma apply_update_keeps_identity (f f' : Flag) (u : FlagUpdate) :
  apply_update f u = Some f' ->
  flag_id f' = flag_id f /\ key f' = key f /\ environment_id f' = environment_id f.
Proof.
  unfold apply_update.
  destruct (set_field (upd_name u) (name f)), (set_field (upd_flag_type u) (flag_type f)),
    (set_field (upd_is_enabled u) (is_enabled f)),
    (set_field (upd_rollout_percentage u) (rollout_percentage f));
    try discriminate.
  intros H; inversion H; subst; simpl; auto.
Qed.

(** The first match of a query stays the first match once its row is
    replaced by one the query also matches. *)
Lemma find_replace_row (P : Flag -> bool) (fs : list Flag) (f0 f' : Flag) :
  find P fs = Some f0 -> P f' = true ->
  find P (map (fun g => if bool_decide (flag_id g = flag_id f0) then f' else g) fs)
  = Some f'.
Proof.
  intros H HP. induction fs as [|g fs IH]; simpl in *; [discriminate|].
  destruct (P g) eqn:Pg.
  - inversion H; subst. rewrite bool_decide_eq_true_2 by reflexivity.
    simpl. rewrite HP. reflexivity.
  - destruct (bool_decide (flag_id g = flag_id f0)); simpl;
      [rewrite HP; reflexivity | rewrite Pg; apply IH; exact H].
Qed.

(** C9: [update_flag] commits the new row, logs it, then deletes the cache
    entry of [(environment_key, flag_key)]; when it returns, the entry is
    gone and the next [evaluate] of that flag misses the cache and computes
    its result from the committed row. *)
Theorem update_then_evaluate_fresh (w w1 : World) (flag_key environment_key user : pystr)
    (u : FlagUpdate) (f' : Flag) :
  update_flag flag_key u environment_key user w = (inr f', w1) ->
  (exists env f0, find_env environment_key w = Some env /\
     find_flag flag_key (env_id env) w = Some f0 /\ apply_update f0 u = Some f' /\
     find_flag flag_key (env_id env) w1 = Some f') /\
  redis_store w1 !! _make_key flag_key environment_key = None /\
  (forall user_id, fst (evaluate flag_key environment_key user_id w1)
                   = _evaluate_flag_data (flag_data_of f') flag_key user_id false).
Proof.
  unfold update_flag, bind, query_environment_by_key, query_flag, raise,
    commit_flag_update, log_update, invalidate_flag, client_delete, ret.
  destruct (find_env environment_key w) as [env|] eqn:E; [|discriminate].
  destruct (find_flag flag_key (env_id env) w) as [f0|] eqn:F; [|discriminate].
  destruct (apply_update f0 u) as [f1|] eqn:A; [|discriminate].
  simpl. destruct (redis_up w) eqn:U; [|discriminate].
  intros H; injection H as <- Hw1.
  destruct (apply_update_keeps_identity _ _ _ A) as (Hid & Hk & He).
  assert (Hf : find_flag flag_key (env_id env) w1 = Some f1).
  { rewrite <- Hw1. unfold find_flag. simpl.
    apply find_replace_row.
    - exact F.
    - unfold find_flag in F. apply find_some in F as [_ F].
      rewrite Hk, He. exact F. }
  assert (Hc : redis_store w1 !! _make_key flag_key environment_key = None).
  { rewrite <- Hw1. simpl. apply lookup_delete_eq. }
  split; [exists env, f0; auto|]. split; [exact Hc|].
  intros user_id. rewrite evaluate_eq, Hc.
  assert (Hu : redis_up w1 = true) by (rewrite <- Hw1; exact U).
  assert (He1 : find_env environment_key w1 = Some env) by (rewrite <- Hw1; exact E).
  rewrite Hu, He1, Hf. reflexivity.
Qed.

(** The order of [update_flag]: with Redis down, the update is committed
    (and logged) and only the invalidation raises. *)
Lemma update_flag_commits_before_invalidating (w : World) (flag_key environment_key user : pystr)
    (u : FlagUpdate) (env : Environment) (f0 f' : Flag) :
  find_env environment_key w = Some env ->
  find_flag flag_key (env_id env) w = Some f0 -> apply_update f0 u = Some f' ->
  redis_up w = false ->
  exists w1, update_flag flag_key u environment_key user w = (inl RedisError, w1) /\
             find_flag flag_key (env_id env) w1 = Some f' /\
             redis_store w1 = redis_store w.
Proof.
  intros E F A U.
  unfold update_flag, bind, query_environment_by_key, query_flag,
    commit_flag_update, log_update, invalidate_flag, client_delete.
  rewrite E, F, A. simpl. rewrite U.
  eexists; split; [reflexivity|]. split; [|reflexivity].
  destruct (apply_update_keeps_identity _ _ _ A) as (Hid & Hk & He).
  unfold find_flag. simpl. apply find_replace_row.
  - exact F.
  - unfold find_flag in F. apply find_some in F as [_ F]. rewrite Hk, He. exact F.
Qed.

(** [delete_environment] never touches the Redis store. *)
Lemma delete_environment_keeps_cache (w : World) (env_key : pystr) :
  redis_store (snd (delete_environment env_key w)) = redis_store w.
Proof.
  unfold delete_environment, bind, query_environment_by_key, raise,
    commit_environment_delete.
  destruct (find_env env_key w) as [env|]; [|reflexivity].
  simpl. destruct (existsb _ _); reflexivity.
Qed.

Lemma lookup_foldr_delete (m : gmap pystr FlagData) (ks : list pystr) (k : pystr) :
  foldr delete m ks !! k = if bool_decide (k ∈ ks) then None else m !! k.
Proof.
  induction ks as [|k' ks IH]; simpl.
  - reflexivity.
  - destruct (decide (k = k')) as [->|Hne].
    + rewrite lookup_delete_eq. rewrite bool_decide_eq_true_2; [reflexivity|].
      apply elem_of_cons. left. reflexivity.
    + rewrite lookup_delete_ne by congruence. rewrite IH.
      destruct (bool_decide (k ∈ ks)) eqn:B.
      * apply bool_decide_eq_true_1 in B.
        rewrite bool_decide_eq_true_2; [reflexivity|]. apply elem_of_cons. right. exact B.
      * apply bool_decide_eq_false_1 in B.
        rewrite bool_decide_eq_false_2; [reflexivity|].
        intros Hin. apply elem_of_cons in Hin as [Hin|Hin]; contradiction.
Qed.

(** What the unused [invalidate_environment] would do: with Redis up it
    removes every key under [flag:{environment_key}:]. *)
Lemma invalidate_environment_clears_namespace (w : World) (environment_key k : pystr) :
  redis_up w = true ->
  starts_with (lit "flag:" ++ environment_key ++ lit ":") k = true ->
  redis_store (snd (invalidate_environment environment_key w)) !! k = None.
Proof.
  intros U Hk.
  set (pre := lit "flag:" ++ environment_key ++ lit ":") in *.
  set (ks := filter (fun k0 => starts_with pre k0) (map fst (map_to_list (redis_store w)))).
  assert (Hs : redis_store (snd (invalidate_environment environment_key w))
               = foldr delete (redis_store w) ks).
  { unfold invalidate_environment, bind, client_keys_prefix, client_delete, ret.
    rewrite U. fold pre. fold ks. destruct ks; simpl; [reflexivity|]. rewrite U. reflexivity. }
  rewrite Hs, lookup_foldr_delete.
  destruct (bool_decide (k ∈ ks)) eqn:B; [reflexivity|].
  apply bool_decide_eq_false_1 in B.
  destruct (redis_store w !! k) as [v|] eqn:L; [|reflexivity].
  exfalso. apply B. unfold ks. apply list_elem_of_filter. split; [rewrite Hk; exact I|].
  apply list_elem_of_In, in_map_iff. exists (k, v). split; [reflexivity|].
  apply list_elem_of_In, elem_of_map_to_list. exact L.
Qed.

(** C3 (code_bug): [delete_environment] never calls [invalidate_environment]:
    deleting [development] (which holds no flag) succeeds and leaves the
    entry [flag:development:beta-feature] in Redis. *)
Theorem delete_environment_leaves_namespace_cached :
  fst (delete_environment (lit "development") w_dev_cached) = inr tt /\
  find_env (lit "development") (snd (delete_environment (lit "development") w_dev_cached))
  = None /\
  redis_store (snd (delete_environment (lit "development") w_dev_cached))
    !! _make_key (lit "beta-feature") (lit "development") = Some boolean_on.
Proof. vm_compute. repeat split. Qed.

(** ** Scenarios and witnesses *)

Example alice_first_is_a_fill :
  fst alice_first = mkEvalResult false (lit "new-checkout")
                      (lit "User bucket 53 is outside 50% rollout") false /\
  redis_store (snd alice_first) !! _make_key (lit "new-checkout") (lit "production")
  = Some (percentage_at 50).
Proof. split; vm_compute; reflexivity. Qed.

Example update_to_60_result :
  fst update_to_60 = mkFlag (lit "flag-1") (lit "new-checkout") (lit "New Checkout Flow")
                       None PERCENTAGE true 60 (lit "env-1") /\
  fst (evaluate (lit "new-checkout") (lit "production") (Some (lit "alice"))
         (snd update_to_60))
  = inr (mkEvalResult true (lit "new-checkout")
           (lit "User bucket 53 is within 60% rollout") false).
Proof. split; vm_compute; reflexivity. Qed.

Lemma evaluate_propagates_cache_failure_witness :
  redis_up w_redis_down = false /\
  evaluate (lit "new-checkout") (lit "production") (Some (lit "alice")) w_redis_down
  = (inl RedisError, w_redis_down).
Proof.
  split; [reflexivity|]. apply evaluate_propagates_cache_failure. reflexivity.
Defined.

Lemma evaluate_not_found_on_miss_witness :
  evaluate (lit "dark-mode") (lit "staging") None w_prod
  = (inr (mkEvalResult false (lit "dark-mode")
            (lit "Environment '" ++ lit "staging" ++ lit "' not found") false), w_prod).
Proof.
  apply (proj1 (evaluate_not_found_on_miss w_prod (lit "dark-mode") (lit "staging") None
                  ltac:(reflexivity) ltac:(vm_compute; reflexivity))).
  vm_compute. reflexivity.
Defined.

Lemma evaluate_deterministic_witness :
  exists r2, fst (evaluate (lit "new-checkout") (lit "production") (Some (lit "alice"))
                    (snd alice_first)) = inr r2 /\
             enabled r2 = enabled (fst alice_first).
Proof.
  apply (evaluate_deterministic w_prod (snd alice_first) (lit "new-checkout")
           (lit "production") (Some (lit "alice")) (fst alice_first)).
  vm_compute. reflexivity.
Defined.

Lemma rollout_monotone_witness :
  exists r', _evaluate_flag_data (percentage_at 70) (lit "new-checkout")
               (Some (lit "alice")) false = inr r' /\ enabled r' = true.
Proof.
  apply (rollout_monotone (lit "new-checkout") (Some (lit "alice")) false 60 70
           (mkEvalResult true (lit "new-checkout")
              (lit "User bucket 53 is within 60% rollout") false)).
  - lia.
  - vm_compute. reflexivity.
  - reflexivity.
Defined.

Lemma evaluate_cache_roundtrip_witness :
  exists r2, evaluate (lit "new-checkout") (lit "production") (Some (lit "alice"))
               (snd alice_first) = (inr r2, snd alice_first) /\
             cached r2 = true /\ enabled r2 = enabled (fst alice_first).
Proof.
  apply (evaluate_cache_roundtrip w_prod (snd alice_first) (lit "new-checkout")
           (lit "production") (Some (lit "alice")) (fst alice_first)).
  - vm_compute. reflexivity.
  - reflexivity.
  - vm_compute. intros H. discriminate H.
Defined.

Lemma update_then_evaluate_fresh_witness :
  redis_store (snd update_to_60) !! _make_key (lit "new-checkout") (lit "production")
  = None /\
  fst (evaluate (lit "new-checkout") (lit "production") (Some (lit "alice"))
         (snd update_to_60))
  = _evaluate_flag_data (flag_data_of (fst update_to_60)) (lit "new-checkout")
      (Some (lit "alice")) false.
Proof.
  destruct (update_then_evaluate_fresh (snd alice_first) (snd update_to_60)
              (lit "new-checkout") (lit "production") (lit "user-1") rollout_to_60
              (fst update_to_60) ltac:(vm_compute; reflexivity)) as (_ & Hc & He).
  split; [exact Hc | apply He].
Defined.

Lemma empty_user_id_is_absent_witness :
  _evaluate_flag_data (percentage_at 50) (lit "new-checkout") (Some []) false
  = _evaluate_flag_data (percentage_at 50) (lit "new-checkout") None false.
Proof.
  apply (proj2 (empty_user_id_is_absent (percentage_at 50) (lit "new-checkout") false
                  ltac:(reflexivity) ltac:(reflexivity))).
Defined.

(** ** The cache key namespace *)

Lemma no_colon_cons (c : Z) (s : pystr) :
  no_colon (c :: s) = true -> c <> 58 /\ no_colon s = true.
Proof.
  unfold no_colon. cbn [existsb]. rewrite negb_orb. intros H.
  apply andb_true_iff in H as [H1 H2]. split; [|exact H2].
  apply negb_true_iff, Z.eqb_neq in H1. lia.
Qed.

Lemma colon_split (e e' f f' : pystr) :
  no_colon e = true -> no_colon e' = true ->
  e ++ 58 :: f = e' ++ 58 :: f' -> e = e' /\ f = f'.
Proof.
  revert e'. induction e as [|c e IH]; intros e' He He' H; destruct e' as [|c' e'];
    simpl in H.
  - inversion H. auto.
  - apply no_colon_cons in He' as [Hc _]. inversion H. congruence.
  - apply no_colon_cons in He as [Hc _]. inversion H. congruence.
  - apply no_colon_cons in He as [_ He]. apply no_colon_cons in He' as [_ He'].
    inversion H; subst. destruct (IH e' He He' H2). subst. auto.
Qed.



(** [_make_key] is injective on environment keys without [:]: two
    (flag, environment) pairs share a cache key only if they are equal. *)
Theorem make_key_injective (f e f' e' : pystr) :
  no_colon e = true -> no_colon e' = true ->
  _make_key f e = _make_key f' e' -> f = f' /\ e = e'.
Proof.
  intros He He' H. unfold _make_key in H. apply app_inv_head in H.
  destruct (colon_split e e' f f' He He' H). auto.
Qed.




(** [evaluate] writes no table, never changes whether Redis is reachable,
    touches no cache key but its own, and changes nothing on a cache hit. *)
Theorem evaluate_footprint (w : World) (f e : pystr) (u : option pystr) :
  environments (snd (evaluate f e u w)) = environments w /\
  flags (snd (evaluate f e u w)) = flags w /\
  audit_logs (snd (evaluate f e u w)) = audit_logs w /\
  redis_up (snd (evaluate f e u w)) = redis_up w /\
  (forall k, k <> _make_key f e ->
     redis_store (snd (evaluate f e u w)) !! k = redis_store w !! k) /\
  (redis_store w !! _make_key f e <> None -> snd (evaluate f e u w) = w).
Proof.
  rewrite evaluate_eq.
  destruct (negb (redis_up w)); [simpl; repeat split; auto|].
  destruct (redis_store w !! _make_key f e) as [cf|] eqn:C; [simpl; repeat split; auto|].
  destruct (find_env e w) as [env|]; [|simpl; repeat split; auto; congruence].
  destruct (find_flag f (env_id env) w) as [fl|]; [|simpl; repeat split; auto; congruence].
  simpl. repeat split.
  - intros k Hk. apply lookup_insert_ne. congruence.
  - intros H. congruence.
Qed.

(** ** The decision *)

(** A result of [_evaluate_flag_data] always carries the flag key asked
    for, and it is enabled only for an enabled flag that is either boolean,
    or percentage with a non-empty user id whose bucket is below the
    rollout; an unknown flag type is never enabled. *)
Theorem evaluate_flag_data_enabled_iff (fd : FlagData) (flag_key : pystr)
    (user_id : option pystr) (c : bool) (r : EvalResult) :
  _evaluate_flag_data fd flag_key user_id c = inr r ->
  res_flag_key r = flag_key /\
  (enabled r = true <->
   fd_is_enabled fd = true /\
   (fd_flag_type fd = FlagType_value BOOLEAN \/
    (fd_flag_type fd = FlagType_value PERCENTAGE /\
     exists uid b, user_id = Some uid /\ uid <> [] /\ _get_bucket flag_key uid = Some b /\
                   b < fd_rollout_percentage fd))).
Proof.
  unfold _evaluate_flag_data.
  destruct (fd_is_enabled fd) eqn:En; simpl negb.
  2:{ intros H; inversion H; subst; simpl. split; [reflexivity|].
      split; [discriminate|]. intros [Hf _]. discriminate. }
  destruct (bool_decide (fd_flag_type fd = FlagType_value BOOLEAN)) eqn:B.
  { apply bool_decide_eq_true_1 in B.
    intros H; inversion H; subst; simpl. split; [reflexivity|]. tauto. }
  apply bool_decide_eq_false_1 in B.
  destruct (bool_decide (fd_flag_type fd = FlagType_value PERCENTAGE)) eqn:P.
  2:{ apply bool_decide_eq_false_1 in P.
      intros H; inversion H; subst; simpl. split; [reflexivity|].
      split; [discriminate|]. intros [_ [Hb|[Hp _]]]; contradiction. }
  apply bool_decide_eq_true_1 in P.
  destruct user_id as [[|x u]|].
  - intros H; inversion H; subst; simpl. split; [reflexivity|].
    split; [discriminate|].
    intros [_ [Hb|[_ (uid & b & Hu & Hne & _)]]]; [contradiction|].
    inversion Hu; subst. contradiction.
  - destruct (_get_bucket flag_key (x :: u)) as [b|] eqn:G; [|discriminate].
    destruct (b <? fd_rollout_percentage fd) eqn:L;
      intros H; inversion H; subst; simpl; split; try reflexivity.
    + split; [intros _|reflexivity].
      split; [reflexivity|]. right. split; [exact P|].
      exists (x :: u), b. repeat split; [discriminate|exact G|]. apply Z.ltb_lt, L.
    + split; [discriminate|].
      intros [_ [Hb|[_ (uid & b' & Hu & _ & Hg & Hl)]]]; [contradiction|].
      inversion Hu; subst. rewrite G in Hg. inversion Hg; subst.
      apply Z.ltb_nlt in L. contradiction.
  - intros H; inversion H; subst; simpl. split; [reflexivity|].
    split; [discriminate|].
    intros [_ [Hb|[_ (uid & b & Hu & _)]]]; [contradiction|discriminate].
Qed.


(** ** Failures of [update_flag] *)


(** ** Creating flags *)

(** [flags.key] is unique across environments: creating a flag whose key
    another environment already uses passes the per-environment check and
    then fails at the commit, with nothing written. *)
Theorem create_flag_key_taken_elsewhere (w : World) (fc : FlagCreate) (new_id user : pystr)
    (env : Environment) (g : Flag) :
  find_env_by_id (fc_environment_id fc) w = Some env ->
  find_flag (fc_key fc) (fc_environment_id fc) w = None ->
  In g (flags w) -> key g = fc_key fc ->
  create_flag fc new_id user w = (inl IntegrityError, w).
Proof.
  intros E F Hin Hk.
  unfold create_flag, bind, query_environment_by_id, query_flag, commit_flag_insert.
  rewrite E, F.
  assert (Hx : existsb (fun g0 => bool_decide (flag_id g0 = new_id) ||
                                  bool_decide (key g0 = fc_key fc)) (flags w) = true).
  { apply existsb_exists. exists g. split; [exact Hin|].
    rewrite (bool_decide_eq_true_2 (key g = fc_key fc)) by exact Hk.
    apply orb_true_r. }
  simpl. rewrite Hx. reflexivity.
Qed.

(** A successful [create_flag] appends exactly one row, with the id drawn
    and the requested fields, and one "created" audit entry naming the
    environment's key; the cache is not touched. *)
Theorem create_flag_success (w w1 : World) (fc : FlagCreate) (new_id user : pystr)
    (f : Flag) :
  create_flag fc new_id user w = (inr f, w1) ->
  exists env, find_env_by_id (fc_environment_id fc) w = Some env /\
    f = mkFlag new_id (fc_key fc) (fc_name fc) (fc_description fc) (fc_flag_type fc)
          (fc_is_enabled fc) (fc_rollout_percentage fc) (fc_environment_id fc) /\
    flags w1 = flags w ++ [f] /\ environments w1 = environments w /\
    audit_logs w1 = audit_logs w ++
      [mkAuditLog (lit "flag") new_id (fc_key fc) (lit "created") user (Some (env_key env))] /\
    redis_store w1 = redis_store w /\
    Forall (fun g => flag_id g <> new_id /\ key g <> fc_key fc) (flags w).
Proof.
  unfold create_flag, bind, query_environment_by_id, query_flag, raise,
    commit_flag_insert, log_create, _create_log, ret.
  destruct (find_env_by_id (fc_environment_id fc) w) as [env|]; [|discriminate].
  destruct (find_flag (fc_key fc) (fc_environment_id fc) w); [discriminate|].
  simpl. destruct (existsb _ (flags w)) eqn:X; [discriminate|].
  intros H; inversion H; subst. exists env. simpl. repeat split; try reflexivity.
  apply Forall_forall. intros g Hg. apply list_elem_of_In in Hg.
  split; intros Heq; rewrite <- not_true_iff_false in X; apply X;
    apply existsb_exists; exists g; (split; [exact Hg|]);
    [rewrite (bool_decide_eq_true_2 (flag_id g = new_id)) by exact Heq; reflexivity
    |rewrite (bool_decide_eq_true_2 (key g = fc_key fc)) by exact Heq; apply orb_true_r].
Qed.

(** ** Lists under the [UNIQUE] constraints *)

Lemma NoDup_map_inj {A B} (h : A -> B) (l : list A) (a b : A) :
  NoDup (map h l) -> In a l -> In b l -> h a = h b -> a = b.
Proof.
  induction l as [|x l IH]; simpl; [contradiction|].
  intros Hn Ha Hb Hab. apply NoDup_cons in Hn as [Hx Hn].
  destruct Ha as [<-|Ha], Hb as [<-|Hb]; auto.
  - exfalso. apply Hx. rewrite Hab. apply list_elem_of_In, in_map. exact Hb.
  - exfalso. apply Hx. rewrite <- Hab. apply list_elem_of_In, in_map. exact Ha.
Qed.

Lemma NoDup_map_snoc {A B} (h : A -> B) (l : list A) (x : A) :
  NoDup (map h l) -> (forall y, In y l -> h y <> h x) -> NoDup (map h (l ++ [x])).
Proof.
  induction l as [|y l IH]; simpl; intros Hn Hy.
  - constructor; [apply not_elem_of_nil|constructor].
  - apply NoDup_cons in Hn as [Hyl Hn]. constructor.
    + rewrite map_app. intros Hin. apply list_elem_of_In in Hin.
      apply in_app_or in Hin as [Hin|[Hin|[]]];
        [apply Hyl, list_elem_of_In; exact Hin|].
      apply (Hy y (or_introl eq_refl)). symmetry. exact Hin.
    + apply IH; [exact Hn|]. intros z Hz. apply Hy. right. exact Hz.
Qed.

Lemma NoDup_map_filter {A B} (h : A -> B) (P : A -> Prop) `{forall x, Decision (P x)}
    (l : list A) :
  NoDup (map h l) -> NoDup (map h (filter P l)).
Proof.
  induction l as [|x l IH]; intros Hn; [constructor|].
  rewrite filter_cons. simpl in Hn. apply NoDup_cons in Hn as [Hx Hn].
  destruct (decide (P x)); simpl; [|apply IH; exact Hn].
  constructor; [|apply IH; exact Hn].
  intros Hin. apply Hx. apply list_elem_of_In in Hin.
  apply in_map_iff in Hin as (y & Hy & Hin).
  apply list_elem_of_In, in_map_iff. exists y. split; [exact Hy|].
  apply list_elem_of_In in Hin. apply list_elem_of_filter in Hin as [_ Hin].
  apply list_elem_of_In. exact Hin.
Qed.

Lemma find_filter_same {A} (P : A -> bool) (Q : A -> Prop) `{forall x, Decision (Q x)}
    (l : list A) :
  (forall x, In x l -> P x = true -> Q x) -> find P (filter Q l) = find P l.
Proof.
  induction l as [|x l IH]; intros HQ; [reflexivity|].
  rewrite filter_cons. simpl.
  destruct (P x) eqn:Px; destruct (decide (Q x)) as [Hq|Hq].
  - simpl. rewrite Px. reflexivity.
  - exfalso. apply Hq, HQ; [left; reflexivity|exact Px].
  - simpl. rewrite Px. apply IH. intros y Hy. apply HQ. right. exact Hy.
  - apply IH. intros y Hy. apply HQ. right. exact Hy.
Qed.

Lemma find_some_iff {A} (P : A -> bool) (l : list A) :
  find P l <> None <-> exists x, In x l /\ P x = true.
Proof.
  split.
  - destruct (find P l) as [a|] eqn:F; [|contradiction]. intros _.
    exists a. apply find_some, F.
  - intros (x & Hx & Px) F. pose proof (find_none _ _ F x Hx). congruence.
Qed.

Lemma existsb_false_In {A} (p : A -> bool) (l : list A) (y : A) :
  existsb p l = false -> In y l -> p y = false.
Proof.
  intros X Hy. destruct (p y) eqn:Py; [|reflexivity].
  rewrite <- X. symmetry. apply existsb_exists. eauto.
Qed.

Lemma replace_row_column (h : Flag -> pystr) (fs : list Flag) (f0 f' : Flag) :
  NoDup (map flag_id fs) -> In f0 fs -> h f' = h f0 ->
  map h (map (fun g => if bool_decide (flag_id g = flag_id f0) then f' else g) fs)
  = map h fs.
Proof.
  intros Hn Hin Hh. rewrite map_map. apply map_ext_in. intros g Hg.
  destruct (bool_decide (flag_id g = flag_id f0)) eqn:B; [|reflexivity].
  apply bool_decide_eq_true_1 in B.
  rewrite (NoDup_map_inj flag_id fs g f0 Hn Hg Hin B). exact Hh.
Qed.

Lemma insert_environments_app (es new es' : list Environment) :
  insert_environments es new = Some es' -> es' = es ++ new.
Proof.
  revert es. induction new as [|e rest IH]; intros es; simpl.
  - intros H; inversion H. rewrite app_nil_r. reflexivity.
  - destruct (existsb _ es); [discriminate|]. intros H.
    rewrite (IH _ H), <- app_assoc. reflexivity.
Qed.



(** ** Deleting flags *)

(** Once [delete_flag] has returned, the next [evaluate] of that flag in
    that environment misses the cache and answers "not found" (under the
    uniqueness of [flags.key]). *)
Theorem delete_flag_then_evaluate (w w1 : World) (flag_key environment_key user : pystr)
    (user_id : option pystr) :
  delete_flag flag_key environment_key user w = (inr tt, w1) ->
  NoDup (map key (flags w)) ->
  redis_store w1 !! _make_key flag_key environment_key = None /\
  fst (evaluate flag_key environment_key user_id w1)
  = inr (flag_not_found flag_key environment_key).
Proof.
  unfold delete_flag, bind, query_environment_by_key, query_flag, raise,
    commit_flag_delete, log_delete, _create_log, invalidate_flag, client_delete, ret.
  destruct (find_env environment_key w) as [env|] eqn:E; [|discriminate].
  destruct (find_flag flag_key (env_id env) w) as [f0|] eqn:F; [|discriminate].
  simpl. destruct (redis_up w) eqn:U; [|discriminate].
  intros H Hn. injection H as Hw1.
  assert (U1 : redis_up w1 = true) by (rewrite <- Hw1; exact U).
  assert (E1 : find_env environment_key w1 = Some env) by (rewrite <- Hw1; exact E).
  assert (C1 : redis_store w1 !! _make_key flag_key environment_key = None)
    by (rewrite <- Hw1; simpl; apply lookup_delete_eq).
  assert (G1 : find_flag flag_key (env_id env) w1 = None).
  { rewrite <- Hw1. unfold find_flag in F |- *. simpl flags.
    destruct (find _ (filter _ (flags w))) as [g|] eqn:G; [exfalso|reflexivity].
    apply find_some in G as [Hg Pg].
    apply list_elem_of_In, list_elem_of_filter in Hg as [Hq Hg].
    apply list_elem_of_In in Hg.
    apply find_some in F as [Hf Pf].
    apply andb_true_iff in Pg as [Pg _]. apply andb_true_iff in Pf as [Pf _].
    apply bool_decide_eq_true_1 in Pg, Pf.
    assert (g = f0) as -> by (apply (NoDup_map_inj key _ _ _ Hn Hg Hf); congruence).
    rewrite bool_decide_eq_true_2 in Hq by reflexivity. exact Hq. }
  split; [exact C1|].
  rewrite evaluate_eq, U1, C1, E1, G1. reflexivity.
Qed.

(** ** Uniqueness and the write paths *)

(** [create_flag], [update_flag] and [delete_flag] keep the flag ids and
    the flag keys unique, whatever their outcome. *)
Theorem flag_writes_keep_keys (w : World) (fc : FlagCreate) (new_id user : pystr)
    (flag_key environment_key : pystr) (u : FlagUpdate) :
  flags_keyed (flags w) ->
  flags_keyed (flags (snd (create_flag fc new_id user w))) /\
  flags_keyed (flags (snd (update_flag flag_key u environment_key user w))) /\
  flags_keyed (flags (snd (delete_flag flag_key environment_key user w))).
Proof.
  intros [Hi Hk]. split; [|split].
  - unfold create_flag, bind, query_environment_by_id, query_flag, raise,
      commit_flag_insert, log_create, _create_log, ret.
    destruct (find_env_by_id (fc_environment_id fc) w); [|split; assumption].
    destruct (find_flag (fc_key fc) (fc_environment_id fc) w); [split; assumption|].
    simpl. destruct (existsb _ (flags w)) eqn:X; [split; assumption|]. simpl.
    split; apply NoDup_map_snoc; try assumption; intros y Hy;
      pose proof (existsb_false_In _ _ _ X Hy) as Hq;
      apply orb_false_iff in Hq as [H1 H2];
      [apply bool_decide_eq_false_1 in H1 | apply bool_decide_eq_false_1 in H2];
      assumption.
  - unfold update_flag, bind, query_environment_by_key, query_flag, raise,
      commit_flag_update, log_update, invalidate_flag, client_delete, ret.
    destruct (find_env environment_key w) as [env|]; [|split; assumption].
    destruct (find_flag flag_key (env_id env) w) as [f0|] eqn:F; [|split; assumption].
    destruct (apply_update f0 u) as [f1|] eqn:A; [|split; assumption].
    unfold find_flag in F. apply find_some in F as [Hf _].
    destruct (apply_update_keeps_identity _ _ _ A) as (Hid & Hkey & _).
    simpl. destruct (redis_up w); simpl;
      (split; [rewrite replace_row_column; assumption|
               rewrite replace_row_column; assumption]).
  - unfold delete_flag, bind, query_environment_by_key, query_flag, raise,
      commit_flag_delete, log_delete, _create_log, invalidate_flag, client_delete, ret.
    destruct (find_env environment_key w) as [env|]; [|split; assumption].
    destruct (find_flag flag_key (env_id env) w) as [f0|]; [|split; assumption].
    simpl. destruct (redis_up w); simpl; split; apply NoDup_map_filter; assumption.
Qed.


(** ** Seeding *)

Lemma seed_pending_cover (w : World) (defs : list EnvironmentCreate) (seed_id : nat -> pystr)
    (n : nat) (d : EnvironmentCreate) :
  In d defs ->
  find_env (ec_key d) w <> None \/
  exists e, In e (seed_pending w defs seed_id n) /\ env_key e = ec_key d.
Proof.
  revert n. induction defs as [|d0 defs IH]; intros n; simpl; [contradiction|].
  intros [->|Hd].
  - destruct (find_env (ec_key d) w) eqn:F; [left; congruence|].
    right. eexists. split; [left; reflexivity|reflexivity].
  - destruct (find_env (ec_key d0) w); [apply IH; exact Hd|].
    destruct (IH (Datatypes.S n) Hd) as [H|(e & He & Hk)]; [left; exact H|].
    right. exists e. split; [right; exact He|exact Hk].
Qed.

Lemma seed_pending_nil (w : World) (defs : list EnvironmentCreate) (seed_id : nat -> pystr)
    (n : nat) :
  (forall d, In d defs -> find_env (ec_key d) w <> None) ->
  seed_pending w defs seed_id n = [].
Proof.
  revert n. induction defs as [|d0 defs IH]; intros n H; simpl; [reflexivity|].
  destruct (find_env (ec_key d0) w) eqn:F.
  - apply IH. intros d Hd. apply H. right. exact Hd.
  - exfalso. apply (H d0); [left; reflexivity|exact F].
Qed.

(** A successful [seed_environments] leaves every default environment key
    in the table, and seeding again then creates nothing and succeeds. *)
Theorem seed_environments_complete (seed_id : nat -> pystr) (w w1 : World) :
  seed_environments seed_id w = (inr tt, w1) ->
  (forall d, In d default_envs -> find_env (ec_key d) w1 <> None) /\
  seed_environments seed_id w1 = (inr tt, w1).
Proof.
  unfold seed_environments at 1, commit_environment_inserts.
  destruct (insert_environments _ _) as [es|] eqn:I; [|discriminate].
  intros H. injection H as <-.
  apply insert_environments_app in I.
  assert (Hc : forall d, In d default_envs -> find_env (ec_key d) (set_environments es w) <> None).
  { intros d Hd. unfold find_env. simpl environments. apply find_some_iff.
    destruct (seed_pending_cover w default_envs seed_id O d Hd) as [F|(e & He & Hk)].
    - unfold find_env in F. apply find_some_iff in F as (x & Hx & Px).
      exists x. split; [rewrite I; apply in_or_app; left; exact Hx|exact Px].
    - exists e. split; [rewrite I; apply in_or_app; right; exact He|].
      apply bool_decide_eq_true_2. exact Hk. }
  split; [exact Hc|].
  unfold seed_environments, commit_environment_inserts.
  rewrite (seed_pending_nil _ _ _ _ Hc). reflexivity.
Qed.

(** ** Roles *)

(** [require_any_role] admits every user; [require_developer_or_admin]
    admits exactly the non-viewers and [require_admin] exactly the admins;
    the refusal is a 403 naming the roles allowed. [role_checker] looks at
    the role only ([get_current_user] has refused inactive accounts). *)
Theorem role_checks (u : User) :
  require_any_role u = inr u /\
  (require_developer_or_admin u = inr u <-> role u <> VIEWER) /\
  (require_admin u = inr u <-> role u = ADMIN) /\
  (role u = VIEWER -> require_developer_or_admin u =
     inl (HTTPException 403 (lit "Access denied. Required role: ['developer', 'admin']"))) /\
  (role u <> ADMIN -> require_admin u =
     inl (HTTPException 403 (lit "Access denied. Required role: ['admin']"))).
Proof.
  unfold require_any_role, require_developer_or_admin, require_admin, require_role.
  destruct (role u); simpl; repeat split; try reflexivity; try congruence;
    intros H; try discriminate; try contradiction.
Qed.

(** [update_user_role]: a non-admin caller changes nothing and gets a 403;
    every refusal leaves the table as it was; no call takes the admin role
    away from the caller's own row; a success returns the requested user
    with the new role, and that row is in the table. *)
Theorem update_user_role_guard (uid : pystr) (new_role : UserRole) (current_user : User)
    (users : list User) :
  (role current_user <> ADMIN ->
   snd (update_user_role uid new_role current_user users) = users /\
   exists d, fst (update_user_role uid new_role current_user users)
             = inl (HTTPException 403 d)) /\
  (forall e, fst (update_user_role uid new_role current_user users) = inl e ->
     snd (update_user_role uid new_role current_user users) = users) /\
  (forall u', In u' (snd (update_user_role uid new_role current_user users)) ->
     user_id u' = user_id current_user -> In u' users \/ role u' = ADMIN) /\
  (forall u', fst (update_user_role uid new_role current_user users) = inr u' ->
     role current_user = ADMIN /\ user_id u' = uid /\ role u' = new_role /\
     In u' (snd (update_user_role uid new_role current_user users))).
Proof.
  unfold update_user_role, require_admin, require_role.
  destruct (role current_user) eqn:R; simpl;
    [repeat split; intros; try congruence; eauto..|].
  destruct (find (fun u => bool_decide (user_id u = uid)) users) as [u0|] eqn:Fd; simpl.
  2:{ repeat split; intros; try congruence; eauto. }
  apply find_some in Fd as [Hu0 Pu0]. apply bool_decide_eq_true_1 in Pu0.
  destruct (bool_decide (user_id u0 = user_id current_user) && negb (UserRole_eqb new_role ADMIN))
    eqn:G; simpl.
  { repeat split; intros; try congruence; eauto. }
  split; [intros; congruence|]. split; [intros ? He; discriminate|]. split.
  - intros u' Hin Hid. apply in_map_iff in Hin as (x & <- & Hx).
    destruct (bool_decide (user_id x = user_id u0)) eqn:B; [|left; exact Hx].
    right. simpl in *. rewrite Hid in G.
    rewrite bool_decide_eq_true_2 in G by reflexivity.
    destruct new_role; simpl in G; congruence.
  - intros u' H. inversion H; subst. simpl. repeat split; try exact Pu0.
    apply in_map_iff. exists u0.
    split; [|exact Hu0]. rewrite bool_decide_eq_true_2 by reflexivity. reflexivity.
Qed.

(** ** Deleting environments *)

(** A successful [delete_environment] removes that key from the table,
    keeps every other environment and every flag, and does not touch the
    cache (ids and keys unique). *)
Theorem delete_environment_success (w w1 : World) (env_key' : pystr) :
  delete_environment env_key' w = (inr tt, w1) ->
  envs_keyed (environments w) ->
  find_env env_key' w1 = None /\ flags w1 = flags w /\ redis_store w1 = redis_store w /\
  (forall k, k <> env_key' -> find_env k w1 = find_env k w).
Proof.
  unfold delete_environment, bind, query_environment_by_key, raise,
    commit_environment_delete.
  destruct (find_env env_key' w) as [env|] eqn:E; [|discriminate].
  simpl. destruct (existsb _ _); [discriminate|].
  intros H [Hi Hk]. injection H as <-.
  unfold find_env in E. apply find_some in E as [Henv Pe].
  apply bool_decide_eq_true_1 in Pe.
  split; [|split; [reflexivity|split; [reflexivity|]]].
  - unfold find_env. simpl environments.
    destruct (find _ (filter _ (environments w))) as [e0|] eqn:G; [exfalso|reflexivity].
    apply find_some in G as [Hg Pg].
    apply list_elem_of_In, list_elem_of_filter in Hg as [Hq Hg].
    apply list_elem_of_In in Hg. apply bool_decide_eq_true_1 in Pg.
    assert (e0 = env) as -> by (apply (NoDup_map_inj env_key _ _ _ Hk Hg Henv); congruence).
    rewrite bool_decide_eq_true_2 in Hq by reflexivity. exact Hq.
  - intros k Hne. unfold find_env. simpl environments. apply find_filter_same.
    intros x Hx Px. apply bool_decide_eq_true_1 in Px.
    destruct (bool_decide (env_id x = env_id env)) eqn:B; [|exact I].
    exfalso. apply bool_decide_eq_true_1 in B.
    assert (x = env) as -> by exact (NoDup_map_inj env_id _ _ _ Hi Hx Henv B).
    congruence.
Qed.

(** A refused [delete_environment] changes nothing: either the key is
    unknown (404), or some flag still refers to the environment and the
    commit fails. *)
Theorem delete_environment_refused (w w1 : World) (env_key' : pystr) (e : Exc) :
  delete_environment env_key' w = (inl e, w1) ->
  w1 = w /\
  ((find_env env_key' w = None /\
    e = HTTPException 404 (lit "Environment '" ++ env_key' ++ lit "' not found")) \/
   (e = IntegrityError /\ exists env f, find_env env_key' w = Some env /\
      In f (flags w) /\ environment_id f = env_id env)).
Proof.
  unfold delete_environment, bind, query_environment_by_key, raise,
    commit_environment_delete.
  destruct (find_env env_key' w) as [env|] eqn:E.
  - simpl. destruct (existsb _ _) eqn:X; [|discriminate].
    intros H; inversion H; subst. split; [reflexivity|]. right. split; [reflexivity|].
    apply existsb_exists in X as (f & Hf & Pf). apply bool_decide_eq_true_1 in Pf.
    exists env, f. auto.
  - intros H; inversion H; subst. auto.
Qed.

(** ** Witnesses *)

(** A decidable proposition about a concrete state, by evaluation. *)
Ltac decide_prop :=
  match goal with |- ?P => apply (bool_decide_unpack P); vm_compute; exact I end.

Lemma make_key_injective_witness :
  lit "new-checkout" = lit "new-checkout" /\ lit "production" = lit "production".
Proof.
  apply (make_key_injective (lit "new-checkout") (lit "production")
           (lit "new-checkout") (lit "production")); reflexivity.
Defined.



Lemma evaluate_flag_data_enabled_iff_witness :
  exists uid b, Some (lit "alice") = Some uid /\ uid <> [] /\
    _get_bucket (lit "new-checkout") uid = Some b /\ b < fd_rollout_percentage (percentage_at 60).
Proof.
  destruct (evaluate_flag_data_enabled_iff (percentage_at 60) (lit "new-checkout")
              (Some (lit "alice")) false
              (mkEvalResult true (lit "new-checkout")
                 (lit "User bucket 53 is within 60% rollout") false)
              ltac:(vm_compute; reflexivity)) as [_ [H _]].
  destruct (H eq_refl) as [_ [Hb|[_ Hp]]].
  - exfalso. vm_compute in Hb. discriminate Hb.
  - exact Hp.
Defined.


Lemma update_flag_commits_before_invalidating_witness :
  exists w1, update_flag (lit "new-checkout") rollout_to_60 (lit "production") (lit "user-1")
               w_redis_down = (inl RedisError, w1) /\
    find_flag (lit "new-checkout") (env_id env_production) w1 =
      Some (mkFlag (lit "flag-1") (lit "new-checkout") (lit "New Checkout Flow") None
              PERCENTAGE true 60 (lit "env-1")) /\
    redis_store w1 = redis_store w_redis_down.
Proof.
  apply (update_flag_commits_before_invalidating w_redis_down (lit "new-checkout")
           (lit "production") (lit "user-1") rollout_to_60 env_production flag_new_checkout);
    vm_compute; reflexivity.
Defined.

Lemma create_flag_key_taken_elsewhere_witness :
  create_flag fc_dark_mode_dev (lit "flag-9") (lit "user-1") w_dev_cached
  = (inl IntegrityError, w_dev_cached).
Proof.
  apply (create_flag_key_taken_elsewhere w_dev_cached fc_dark_mode_dev (lit "flag-9")
           (lit "user-1") env_development flag_dark_mode).
  - vm_compute. reflexivity.
  - vm_compute. reflexivity.
  - simpl. auto.
  - reflexivity.
Defined.

Lemma create_flag_success_witness :
  flags (snd (create_flag fc_beta_dev (lit "flag-3") (lit "user-1") w_dev_cached))
  = flags w_dev_cached ++
    [mkFlag (lit "flag-3") (lit "beta-feature") (lit "Beta Feature") None PERCENTAGE true 25
       (lit "env-2")].
Proof.
  destruct (create_flag_success w_dev_cached
              (snd (create_flag fc_beta_dev (lit "flag-3") (lit "user-1") w_dev_cached))
              fc_beta_dev (lit "flag-3") (lit "user-1")
              (mkFlag (lit "flag-3") (lit "beta-feature") (lit "Beta Feature") None
                 PERCENTAGE true 25 (lit "env-2"))
              ltac:(vm_compute; reflexivity)) as (env & _ & _ & Hf & _).
  exact Hf.
Defined.

Lemma delete_flag_then_evaluate_witness :
  fst (evaluate (lit "dark-mode") (lit "production") None
         (snd (delete_flag (lit "dark-mode") (lit "production") (lit "user-1") w_prod)))
  = inr (flag_not_found (lit "dark-mode") (lit "production")).
Proof.
  apply (proj2 (delete_flag_then_evaluate w_prod
                  (snd (delete_flag (lit "dark-mode") (lit "production") (lit "user-1") w_prod))
                  (lit "dark-mode") (lit "production") (lit "user-1") None
                  ltac:(vm_compute; reflexivity)
                  ltac:(decide_prop))).
Defined.

Lemma flag_writes_keep_keys_witness :
  flags_keyed (flags (snd (create_flag fc_beta_dev (lit "flag-3") (lit "user-1") w_dev_cached))).
Proof.
  apply (proj1 (flag_writes_keep_keys w_dev_cached fc_beta_dev (lit "flag-3") (lit "user-1")
                  (lit "dark-mode") (lit "production") rollout_to_60
                  ltac:(split; decide_prop))).
Defined.


Lemma seed_environments_complete_witness :
  seed_environments seed_ids (snd (seed_environments seed_ids w_empty))
  = (inr tt, snd (seed_environments seed_ids w_empty)).
Proof.
  apply (proj2 (seed_environments_complete seed_ids w_empty
                  (snd (seed_environments seed_ids w_empty))
                  ltac:(vm_compute; reflexivity))).
Defined.

Lemma delete_environment_success_witness :
  find_env (lit "development") (snd (delete_environment (lit "development") w_dev_cached))
  = None.
Proof.
  apply (proj1 (delete_environment_success w_dev_cached
                  (snd (delete_environment (lit "development") w_dev_cached))
                  (lit "development") ltac:(vm_compute; reflexivity)
                  ltac:(split; decide_prop))).
Defined.

Lemma delete_environment_refused_witness :
  snd (delete_environment (lit "production") w_prod) = w_prod.
Proof.
  assert (H : delete_environment (lit "production") w_prod = (inl IntegrityError, w_prod))
    by (vm_compute; reflexivity).
  rewrite H. exact (proj1 (delete_environment_refused _ _ _ _ H)).
Defined.
